(** * excel_handler: the sheet-formatting pipeline, its style registry and
      the reader's column validation

    A shallow embedding of
      - [shared/constants.py]   (the four configuration tables),
      - [shared/exceptions.py]  (the application's exception classes),
      - [services/excel_handler/style_builder.py],
      - [services/excel_handler/set_sheet_formatter.py],
      - [services/excel_handler/excel_reader.py] and the constructor of
        [services/excel_handler/excel_writer.py],
    followed by the properties of the specification, stated over it.

    Conventions.
      - Python [int] is [Z]; a [str] is a [string], one [ascii] per
        character, so [String.length] is Python's [len] and the
        lexicographic order of [String.le] is Python's order on [str].
        Floats are outside the model.
      - A method that mutates its receiver and may raise is a state
        transformer [M S A := S -> result A * S]: the state survives a raised
        exception, as a mutated Python object does.
      - The log is part of the state; it keeps the records of level WARNING
        and ERROR, the ones the specification observes.  DEBUG and INFO
        records change nothing the properties speak about and are left out. *)

From Stdlib Require Import ZArith String Ascii DecimalString.
From stdpp Require Import base gmap sets list strings sorting.

Local Open Scope string_scope.
Local Open Scope list_scope.
Local Open Scope Z_scope.

(** ** Python values, exceptions and the state-and-exception monad *)

Module Py.

(** The scalars that occur as configuration values and as cell values. *)
Inductive pyval : Type :=
| PNone
| PBool (b : bool)
| PInt (z : Z)
| PStr (s : string).

(** A value of a configuration table: a scalar or a [dict] of scalars. *)
Inductive entry : Type :=
| EVal (v : pyval)
| EDict (d : list (string * pyval)).

#[global] Instance pyval_eq_dec : EqDecision pyval.
Proof. solve_decision. Defined.

(** Truth value of an object: [bool(v)]. *)
Definition truthy (v : pyval) : bool :=
  match v with
  | PNone => false
  | PBool b => b
  | PInt z => negb (z =? 0)
  | PStr s => negb (bool_decide (s = EmptyString))
  end.

Definition entry_truthy (e : entry) : bool :=
  match e with
  | EVal v => truthy v
  | EDict d => negb (bool_decide (d = []))
  end.

(** [v or w] *)
Definition py_or (v w : pyval) : pyval := if truthy v then v else w.

Definition str_of_Z (z : Z) : string := NilZero.string_of_int (Z.to_int z).

(** [str(v)] *)
Definition str (v : pyval) : string :=
  match v with
  | PNone => "None"
  | PBool true => "True"
  | PBool false => "False"
  | PInt z => str_of_Z z
  | PStr s => s
  end.

(** [len(s)] *)
Definition len (s : string) : Z := Z.of_nat (String.length s).

(** [range(a, b)] *)
Definition range (a b : Z) : list Z :=
  (λ i : nat, a + Z.of_nat i) <$> seq 0 (Z.to_nat (b - a)).

(** A [dict] in insertion order; [d.get(k)] is the first binding of [k]. *)
Fixpoint dict_get {V : Type} (k : string) (d : list (string * V)) : option V :=
  match d with
  | [] => None
  | (k', v) :: d' => if bool_decide (k' = k) then Some v else dict_get k d'
  end.

Definition dict_keys {V : Type} (d : list (string * V)) : list string := d.*1.

(** [l.index(x)]: position of the first occurrence. *)
Fixpoint list_index (x : string) (l : list string) : option nat :=
  match l with
  | [] => None
  | y :: l' => if bool_decide (y = x) then Some 0%nat else S <$> list_index x l'
  end.

(** The exception classes the code raises or meets.  All of them derive
    from [Exception]; [ParserError] is pandas' and a [ValueError]; the
    last four are [shared/exceptions.py]. *)
Inductive exn_class : Type :=
| ValueError
| TypeError
| AttributeError
| IndexError
| UnboundLocalError
| ParserError
| BaseAppError
| ValidationError
| ExcelFileNotFoundError
| ConfigError.

#[global] Instance exn_class_eq_dec : EqDecision exn_class.
Proof. solve_decision. Defined.

Definition class_name (c : exn_class) : string :=
  match c with
  | ValueError => "ValueError"
  | TypeError => "TypeError"
  | AttributeError => "AttributeError"
  | IndexError => "IndexError"
  | UnboundLocalError => "UnboundLocalError"
  | ParserError => "ParserError"
  | BaseAppError => "BaseAppError"
  | ValidationError => "ValidationError"
  | ExcelFileNotFoundError => "ExcelFileNotFoundError"
  | ConfigError => "ConfigError"
  end.

(** [issubclass(c, d)] *)
Definition issubclass (c d : exn_class) : bool :=
  match d, c with
  | BaseAppError, (ValidationError | ExcelFileNotFoundError | ConfigError) => true
  | ValueError, ParserError => true
  | _, _ => bool_decide (c = d)
  end.

(** [error_code] as the constructors of [shared/exceptions.py] set it. *)
Definition error_code (c : exn_class) : string :=
  match c with
  | ValidationError => "VALIDATION_ERROR"
  | ExcelFileNotFoundError => "FILE_NOT_FOUND"
  | ConfigError => "CONFIG_ERROR"
  | _ => EmptyString
  end.

Record exn : Type := Exn {
  exn_cls : exn_class;
  exn_message : string;
  exn_field : string        (* [ValidationError.field]; empty elsewhere *)
}.

(** [str(e)]: [BaseAppError.__str__] prefixes a non-empty error code. *)
Definition exn_str (e : exn) : string :=
  if bool_decide (error_code (exn_cls e) = EmptyString) then exn_message e
  else "[" +:+ error_code (exn_cls e) +:+ "] " +:+ exn_message e.

Definition isinstance (e : exn) (c : exn_class) : bool := issubclass (exn_cls e) c.

Inductive result (A : Type) : Type :=
| Ok (a : A)
| Raise (e : exn).
Arguments Ok {A} a.
Arguments Raise {A} e.

Definition M (S A : Type) : Type := S → result A * S.

Definition ret {S A} (a : A) : M S A := λ s, (Ok a, s).

Definition bind {S A B} (m : M S A) (k : A → M S B) : M S B :=
  λ s, match m s with
       | (Ok a, s') => k a s'
       | (Raise e, s') => (Raise e, s')
       end.

Definition raise {S A} (c : exn_class) (msg : string) : M S A :=
  λ s, (Raise (Exn c msg EmptyString), s).

(** [raise e] for an exception object, and the bare [raise] of a handler. *)
Definition raise_exn {S A} (e : exn) : M S A := λ s, (Raise e, s).
Definition reraise {S A} (e : exn) : M S A := raise_exn e.

(** [try: body  except Exception as e: handler e] *)
Definition try_except {S A} (body : M S A) (handler : exn → M S A) : M S A :=
  λ s, match body s with
       | (Ok a, s') => (Ok a, s')
       | (Raise e, s') => handler e s'
       end.

Definition get {S} : M S S := λ s, (Ok s, s).
Definition modify {S} (f : S → S) : M S unit := λ s, (Ok tt, f s).
Definition lift {S A} (r : result A) : M S A := λ s, (r, s).

(** [for x in l: body x] *)
Fixpoint for_each {S A} (l : list A) (body : A → M S unit) : M S unit :=
  match l with
  | [] => ret tt
  | x :: l' => bind (body x) (λ _, for_each l' body)
  end.

(** The log: level and message of each record, oldest first. *)
Inductive level : Type := WARNING | ERROR.
Definition log : Type := list (level * string).

End Py.

Export Py.

Declare Scope py_scope.
Delimit Scope py_scope with py.
Notation "x <- c1 ;; c2" := (bind c1 (λ x, c2))
  (at level 100, c1 at next level, right associativity) : py_scope.
Notation "c1 ;; c2" := (bind c1 (λ _, c2))
  (at level 100, right associativity) : py_scope.

(** ** shared/constants.py *)

Module Constants.

(** The four configuration tables.  The two tables that are only looked up
    are finite maps; the two style catalogs are iterated by key, so they
    keep their insertion order. *)
Record Config : Type := {
  declare_data_type : gmap string string;
  map_data_type_style_name : gmap string string;
  data_type_style_name : list (string * entry);
  visual_style_name : list (string * entry)
}.

Definition DECLARE_DATA_TYPE_CONFIG : gmap string string :=
  list_to_map [
    ("dated_created", "date_time");
    ("date_modified", "date");
    ("date_checked", "date_time");
    ("date", "date_time");
    ("number_no_decimal", "int");
    ("number_decimal", "float");
    ("currency", "currency");
    ("percentage", "percentage") ].

Definition MAP_DATA_TYPE_STYLE_NAME_CONFIG : gmap string string :=
  list_to_map [
    ("date", "date_style");
    ("date_time", "date_time_style");
    ("int", "int_style");
    ("float", "float_style");
    ("currency", "currency_style");
    ("percentage", "percentage_style");
    ("default_data_type", "default_style") ].

(** The double quote character of the currency format. *)
Definition dquote : ascii := ascii_of_nat 34.

Definition DATA_TYPE_STYLE_NAME_CONFIG : list (string * entry) := [
  ("date_style", EDict [("format", PStr "dd/mm/yyyy")]);
  ("date_time_style", EDict [("format", PStr "dd/mm/yyyy hh:mm:ss")]);
  ("int_style", EDict [("format", PStr "#,##0")]);
  ("float_style", EDict [("format", PStr "#,##0.00")]);
  ("currency_style",
     EDict [("format", PStr (String dquote ("$" +:+ String dquote "#,##0;[Red]-#,##0")))]);
  ("percentage_style", EDict [("format", PStr "0.00%")]);
  ("default_style", EDict [("format", PStr "General")]) ].

Definition VISUAL_STYLE_NAME_CONFIG : list (string * entry) := [
  ("header_style", EDict [
     ("font_name", PStr "Calibri");
     ("font_size", PInt 12);
     ("font_bold", PBool true);
     ("font_italic", PBool false);
     ("font_vertAlign", PNone);
     ("font_underline", PStr "none");
     ("font_strike", PBool false);
     ("font_color", PStr "FFFFFF");
     ("fill_type", PStr "solid");
     ("fill_start_color", PStr "366092");
     ("fill_end_color", PStr "366092");
     ("alignment_horizontal", PStr "center");
     ("alignment_vertical", PStr "center");
     ("alignment_wrap_text", PBool false) ]);
  ("body_style", EDict [
     ("font_name", PStr "Calibri");
     ("font_size", PInt 11);
     ("font_bold", PBool false);
     ("font_italic", PBool false);
     ("font_vertAlign", PNone);
     ("font_underline", PStr "none");
     ("font_strike", PBool false);
     ("font_color", PStr "000000");
     ("fill_type", PNone);
     ("fill_start_color", PStr "FFFFFF");
     ("fill_end_color", PStr "FFFFFF");
     ("alignment_horizontal", PStr "left");
     ("alignment_vertical", PStr "top");
     ("alignment_wrap_text", PBool false) ]);
  ("auto_adjust_style", EDict [
     ("auto_adjust_width", PBool true);
     ("max_column_width", PInt 60);
     ("auto_adjust_height", PBool false);
     ("max_column_height", PInt 15) ]);
  ("alternating_style", EDict [
     ("alternating_rows", PBool true);
     ("fill_start_color", PStr "F8F9FA");
     ("fill_end_color", PStr "FFFFFF") ]);
  ("freeze_panes_style", EDict [
     ("mode_on", PBool true);
     ("freeze_cell", PStr "B2") ]);
  ("filter_style", EDict [
     ("mode_on", PBool true) ]) ].

(** The configuration as the module ships it. *)
Definition constants : Config := {|
  declare_data_type := DECLARE_DATA_TYPE_CONFIG;
  map_data_type_style_name := MAP_DATA_TYPE_STYLE_NAME_CONFIG;
  data_type_style_name := DATA_TYPE_STYLE_NAME_CONFIG;
  visual_style_name := VISUAL_STYLE_NAME_CONFIG
|}.

End Constants.

Export Constants.

(** ** Operations of the configuration values *)

Module Entry.

Definition type_name (v : pyval) : string :=
  match v with
  | PNone => "NoneType"
  | PBool _ => "bool"
  | PInt _ => "int"
  | PStr _ => "str"
  end.

(** [key in e]: key membership for a [dict], substring search for a [str],
    a [TypeError] for the other scalars. *)
Definition contains (key : string) (e : entry) : result bool :=
  match e with
  | EDict d => Ok (bool_decide (key ∈ dict_keys d))
  | EVal (PStr s) => Ok (bool_decide (is_Some (String.index 0 key s)))
  | EVal v => Raise (Exn TypeError
                ("argument of type '" +:+ type_name v +:+ "' is not iterable") EmptyString)
  end.

(** [e.get(key, dflt)]: only a [dict] has the method. *)
Definition get (e : entry) (key : string) (dflt : pyval) : result pyval :=
  match e with
  | EDict d => Ok (default dflt (dict_get key d))
  | EVal v => Raise (Exn AttributeError
                ("'" +:+ type_name v +:+ "' object has no attribute 'get'") EmptyString)
  end.

(** [CONFIG.get(key, {})] *)
Definition catalog_get (c : list (string * entry)) (key : string) : entry :=
  default (EDict []) (dict_get key c).

End Entry.

(** ** The rendering library: the part of openpyxl the code drives *)

Module Openpyxl.

Record Font : Type := {
  font_name : pyval; font_size : pyval; font_bold : pyval; font_italic : pyval;
  font_vertAlign : pyval; font_underline : pyval; font_strike : pyval;
  font_color : pyval
}.

Record PatternFill : Type := {
  fill_type : pyval; start_color : pyval; end_color : pyval
}.

Record Alignment : Type := {
  horizontal : pyval; vertical : pyval; wrap_text : pyval
}.

(** A named style; [None] in an attribute group is the library's default.
    The attribute values are kept as the configuration gives them: what the
    library's constructors make of an ill-typed value is not modelled. *)
Record NamedStyle : Type := {
  name : string;
  font : option Font;
  fill : option PatternFill;
  alignment : option Alignment;
  number_format : option pyval
}.

(** [NamedStyle(name=n)] *)
Definition new_NamedStyle (n : string) : NamedStyle :=
  {| name := n; font := None; fill := None; alignment := None; number_format := None |}.

(** What a cell holds: its value and the name of its style. *)
Record Cell : Type := {
  value : pyval;
  style : string
}.

(** The sheet: its cells by (row, column), the widths set on its columns
    (a column letter is its 1-based index), the filter range and the
    freeze anchor. *)
Record Worksheet : Type := {
  _cells : gmap (Z * Z) Cell;
  column_dimensions : gmap Z Z;
  auto_filter_ref : option string;
  freeze_panes : option string
}.

Definition empty_sheet : Worksheet :=
  {| _cells := ∅; column_dimensions := ∅; auto_filter_ref := None; freeze_panes := None |}.

(** A cell never written to has no value and the style [Normal]. *)
Definition blank_cell : Cell := {| value := PNone; style := "Normal" |}.

(** [ws.cell(row=r, column=c)] *)
Definition cell (ws : Worksheet) (r c : Z) : Cell :=
  default blank_cell (_cells ws !! (r, c)).

Definition with_style (s : string) (x : Cell) : Cell :=
  {| value := value x; style := s |}.

(** [ws.cell(row=r, column=c).style = s]; the cell is created when the
    sheet does not have it.  The library looks the name up among the styles
    of the sheet's workbook; the formatter's constructor has registered the
    catalogs' styles there before any sheet is formatted, and the assignment
    is taken to find the name. *)
Definition set_cell_style (r c : Z) (s : string) (ws : Worksheet) : Worksheet :=
  {| _cells := <[(r, c) := with_style s (cell ws r c)]> (_cells ws);
     column_dimensions := column_dimensions ws;
     auto_filter_ref := auto_filter_ref ws;
     freeze_panes := freeze_panes ws |}.

(** [ws.cell(row=r, column=c).value = v] *)
Definition set_cell_value (r c : Z) (v : pyval) (ws : Worksheet) : Worksheet :=
  {| _cells := <[(r, c) := {| value := v; style := style (cell ws r c) |}]> (_cells ws);
     column_dimensions := column_dimensions ws;
     auto_filter_ref := auto_filter_ref ws;
     freeze_panes := freeze_panes ws |}.

(** [ws.column_dimensions[letter].width = w] *)
Definition set_width (c : Z) (w : Z) (ws : Worksheet) : Worksheet :=
  {| _cells := _cells ws;
     column_dimensions := <[c := w]> (column_dimensions ws);
     auto_filter_ref := auto_filter_ref ws;
     freeze_panes := freeze_panes ws |}.

(** [ws.max_row] and [ws.max_column]: 1 on a sheet without cells. *)
Definition max_row (ws : Worksheet) : Z :=
  foldr Z.max 1 ((λ kv : Z * Z * Cell, kv.1.1) <$> map_to_list (_cells ws)).

Definition max_column (ws : Worksheet) : Z :=
  foldr Z.max 1 ((λ kv : Z * Z * Cell, kv.1.2) <$> map_to_list (_cells ws)).

(** A cell as a column hands it out: its row, its column, what it holds. *)
Definition located : Type := Z * Z * Cell.
Definition column (x : located) : Z := x.1.2.
Definition contents (x : located) : Cell := x.2.

(** [ws.columns]: nothing on a sheet without cells; otherwise, for each
    column of 1..max_column, its cells of rows 1..max_row, absent cells
    read as blank ones.  (The library also stores those blank cells; they
    read the same through [cell].) *)
Definition columns (ws : Worksheet) : list (list located) :=
  if bool_decide (_cells ws = ∅) then []
  else (λ c, (λ r, (r, c, cell ws r c)) <$> range 1 (max_row ws + 1))
         <$> range 1 (max_column ws + 1).

(** What stays the library's own: the two setters whose argument it
    parses (the filter range taken from [ws.dimensions], the freeze anchor)
    and the text it prints for a style.  Every property below holds
    whatever they do and whenever they raise. *)
Record Renderer : Type := {
  set_auto_filter_ref : M Worksheet unit;          (* ws.auto_filter.ref = ws.dimensions *)
  set_freeze_panes : pyval → M Worksheet unit;     (* ws.freeze_panes = cell *)
  repr_NamedStyle : NamedStyle → string            (* str(item) *)
}.

(** The workbook: its registered named styles, oldest first, and sheets. *)
Record Workbook : Type := {
  _named_styles : list NamedStyle;
  worksheets : list (string * Worksheet)
}.

(** [Workbook()]: one sheet, and the built-in style [Normal]. *)
Definition new_Workbook : Workbook :=
  {| _named_styles := [new_NamedStyle "Normal"];
     worksheets := [("Sheet", empty_sheet)] |}.

Definition style_names (wb : Workbook) : list string := name <$> _named_styles wb.

(** [wb.add_named_style(item)]: the library takes [NamedStyle] objects only
    and refuses a name it already has. *)
Definition add_named_style (item : option NamedStyle) : M Workbook unit :=
  match item with
  | None => raise TypeError "Only NamedStyle instances can be added"
  | Some st =>
      wb <- get ;;
      if bool_decide (name st ∈ style_names wb)
      then raise ValueError ("Style " +:+ name st +:+ " exists already")
      else modify (λ wb, {| _named_styles := _named_styles wb ++ [st];
                            worksheets := worksheets wb |})
  end%py.

End Openpyxl.

Export Openpyxl.

(** ** services/logger: the process-wide logger *)

Module Logger.

(** The log rides along with the object a method mutates. *)
Definition warning {T} (msg : string) : M (T * log) unit :=
  modify (λ s, (s.1, s.2 ++ [(WARNING, msg)])).

Definition error {T} (msg : string) : M (T * log) unit :=
  modify (λ s, (s.1, s.2 ++ [(ERROR, msg)])).

(** Run an operation of the object, leaving the log alone. *)
Definition on_target {T A} (m : M T A) : M (T * log) A :=
  λ s, let (r, t') := m s.1 in (r, (t', s.2)).

End Logger.

(** ** services/excel_handler/style_builder.py *)

Module StyleBuilder.

Section builder.
Context {T : Type} (cfg : Config).

Local Open Scope py_scope.

(** [style_name_cfg.get(key, dflt)] inside the builder. *)
Definition eget (e : entry) (key : string) (dflt : pyval) : M (T * log) pyval :=
  lift (Entry.get e key dflt).

(** The style built for one key, or [None] under a warning when the
    catalog has nothing truthy for it.  An attribute group is set only when
    its leading key is in the entry. *)
Definition _build_named_style (style_name style_type : string)
  : M (T * log) (option NamedStyle) :=
  let named_style_obj := new_NamedStyle style_name in
  if bool_decide (style_type = "VISUAL_STYLE_NAME_CONFIG") then
    match dict_get style_name (visual_style_name cfg) with
    | Some style_name_cfg =>
      if entry_truthy style_name_cfg then
        (* Init `font` *)
        has_font <- lift (Entry.contains "font_name" style_name_cfg) ;;
        the_font <-
          (if has_font : bool then
             f1 <- eget style_name_cfg "font_name" (PStr "Calibri") ;;
             f2 <- eget style_name_cfg "font_size" (PInt 11) ;;
             f3 <- eget style_name_cfg "font_bold" (PBool false) ;;
             f4 <- eget style_name_cfg "font_italic" (PBool false) ;;
             f5 <- eget style_name_cfg "font_vertAlign" PNone ;;
             f6 <- eget style_name_cfg "font_underline" (PStr "none") ;;
             f7 <- eget style_name_cfg "font_strike" (PBool false) ;;
             f8 <- eget style_name_cfg "font_color" (PStr "000000") ;;
             ret (Some {| font_name := f1; font_size := f2; font_bold := f3;
                          font_italic := f4; font_vertAlign := f5;
                          font_underline := f6; font_strike := f7;
                          font_color := f8 |})
           else ret (font named_style_obj)) ;;
        (* Init `pattern_fill` *)
        has_fill <- lift (Entry.contains "fill_type" style_name_cfg) ;;
        the_fill <-
          (if has_fill : bool then
             p1 <- eget style_name_cfg "fill_type" PNone ;;
             p2 <- eget style_name_cfg "fill_start_color" (PStr "FFFFFF") ;;
             p3 <- eget style_name_cfg "fill_end_color" (PStr "FFFFFF") ;;
             ret (Some {| fill_type := p1; start_color := p2; end_color := p3 |})
           else ret (fill named_style_obj)) ;;
        (* Init `alignment` *)
        has_alignment <- lift (Entry.contains "alignment_horizontal" style_name_cfg) ;;
        the_alignment <-
          (if has_alignment : bool then
             a1 <- eget style_name_cfg "alignment_horizontal" (PStr "left") ;;
             a2 <- eget style_name_cfg "alignment_vertical" (PStr "top") ;;
             a3 <- eget style_name_cfg "alignment_wrap_text" (PBool false) ;;
             ret (Some {| horizontal := a1; vertical := a2; wrap_text := a3 |})
           else ret (alignment named_style_obj)) ;;
        ret (Some {| name := name named_style_obj;
                     font := the_font;
                     fill := the_fill;
                     alignment := the_alignment;
                     number_format := number_format named_style_obj |})
      else
        Logger.warning ("Config style '" +:+ style_name +:+
                        "' not found in VISUAL_STYLE_NAME_CONFIG") ;;
        ret None
    | None =>
        Logger.warning ("Config style '" +:+ style_name +:+
                        "' not found in VISUAL_STYLE_NAME_CONFIG") ;;
        ret None
    end
  else if bool_decide (style_type = "DATA_TYPE_STYLE_NAME_CONFIG") then
    match dict_get style_name (data_type_style_name cfg) with
    | Some style_name_cfg =>
      if entry_truthy style_name_cfg then
        (* Init `format` *)
        has_format <- lift (Entry.contains "format" style_name_cfg) ;;
        the_format <-
          (if has_format : bool then
             v <- eget style_name_cfg "format" (PStr "General") ;;
             ret (Some v)
           else ret (number_format named_style_obj)) ;;
        ret (Some {| name := name named_style_obj;
                     font := font named_style_obj;
                     fill := fill named_style_obj;
                     alignment := alignment named_style_obj;
                     number_format := the_format |})
      else
        Logger.warning ("Config style '" +:+ style_name +:+
                        "' not found in DATA_TYPE_STYLE_NAME_CONFIG") ;;
        ret None
    | None =>
        Logger.warning ("Config style '" +:+ style_name +:+
                        "' not found in DATA_TYPE_STYLE_NAME_CONFIG") ;;
        ret None
    end
  else ret (Some named_style_obj).

(** One of the two loops of [build_bulk_named_style]: every key's result
    is appended to [res_lst], whatever it is. *)
Fixpoint build_each (style_type : string) (keys : list string)
    (res_lst : list (option NamedStyle)) : M (T * log) (list (option NamedStyle)) :=
  match keys with
  | [] => ret res_lst
  | snc :: keys' =>
      snc_ <- _build_named_style snc style_type ;;
      build_each style_type keys' (res_lst ++ [snc_])
  end.

Definition build_bulk_named_style : M (T * log) (list (option NamedStyle)) :=
  res_lst <- build_each "VISUAL_STYLE_NAME_CONFIG"
               (dict_keys (visual_style_name cfg)) [] ;;
  build_each "DATA_TYPE_STYLE_NAME_CONFIG"
    (dict_keys (data_type_style_name cfg)) res_lst.

End builder.

End StyleBuilder.

Export StyleBuilder.

(** ** services/excel_handler/set_sheet_formatter.py *)

(** A table: its column labels and its data rows. *)
Record DataFrame : Type := {
  df_columns : list string;
  df_rows : list (list pyval)
}.

Module SetSheetFormatter.

Local Open Scope py_scope.

(** [max([...], default=d)] *)
Definition py_max (l : list Z) (d : Z) : Z :=
  match l with
  | [] => d
  | x :: l' => foldl Z.max x l'
  end.

(** [min(a, w)] for an [int] [a] and a configuration value [w]: numbers
    compare ([bool] is a kind of [int]); anything else has no order with
    an [int]. *)
Definition py_min (a : Z) (w : pyval) : result Z :=
  match w with
  | PInt z => Ok (Z.min a z)
  | PBool b => Ok (Z.min a (if b then 1 else 0))
  | v => Raise (Exn TypeError
           ("'<' not supported between instances of '" +:+ Entry.type_name v +:+
            "' and 'int'") EmptyString)
  end.

Section formatter.
Context (cfg : Config) (lib : Renderer).

(** The loop of [_init_global_styles] under its handler: the first
    registration that fails is logged and raised again. *)
Fixpoint register_each (named_style_lst : list (option NamedStyle))
  : M (Workbook * log) unit :=
  match named_style_lst with
  | [] => ret tt
  | item :: rest =>
      try_except (Logger.on_target (add_named_style item))
        (λ e, Logger.error ("Error initializing styles: " +:+
                              from_option (repr_NamedStyle lib) "None" item +:+
                              " // " +:+ exn_str e) ;;
              reraise e) ;;
      register_each rest
  end.

(** The handler formats [item], the loop variable, which is bound only
    once the loop has started: when [build_bulk_named_style] itself
    fails, the handler ends in an [UnboundLocalError]. *)
Definition _init_global_styles : M (Workbook * log) unit :=
  named_style_lst <-
    try_except (build_bulk_named_style cfg)
      (λ _, raise UnboundLocalError
              "cannot access local variable 'item' where it is not associated with a value") ;;
  register_each named_style_lst.

(** [SetSheetFormatter(wb)] *)
Definition __init__ : M (Workbook * log) unit := _init_global_styles.

Definition _apply_styles (row_idx col_idx num_rows num_cols : Z)
    (applied_style_name : string) : M (Worksheet * log) unit :=
  if bool_decide (row_idx < 1 ∨ col_idx < 1) then
    raise ValueError ("Row and column indices must be >= 1, got row=" +:+
                      str_of_Z row_idx +:+ ", col=" +:+ str_of_Z col_idx)
  else
    for_each (range row_idx (row_idx + num_rows)) (λ r,
      for_each (range col_idx (col_idx + num_cols)) (λ c,
        modify (λ s, (set_cell_style r c applied_style_name s.1, s.2)))).

(** The two lookups of [format_style_base_on_data_type], named after its
    local variables. *)
Definition cfg_data_type (col : string) : string :=
  default "default_data_type" (declare_data_type cfg !! col).

Definition cfg_style_name (col : string) : string :=
  default "default_style" (map_data_type_style_name cfg !! cfg_data_type col).

Definition format_style_base_on_data_type (column_name_lst : list string)
    (num_rows : Z) : M (Worksheet * log) unit :=
  if bool_decide (column_name_lst = []) then
    Logger.warning "Empty column list provided"
  else if bool_decide (num_rows < 0) then
    raise ValueError ("num_rows must be non-negative, got " +:+ str_of_Z num_rows)
  else
    for_each column_name_lst (λ col,
      match list_index col column_name_lst with
      | Some i =>
          let col_applied_style := Z.of_nat i + 1 in
          _apply_styles 2 col_applied_style num_rows 1 (cfg_style_name col)
      | None => raise ValueError ("'" +:+ col +:+ "' is not in list")
      end).

Definition format_style_header_body (num_rows num_cols : Z)
  : M (Worksheet * log) unit :=
  if bool_decide (num_rows < 1 ∨ num_cols < 1) then
    raise ValueError ("num_rows (" +:+ str_of_Z num_rows +:+ ") and num_cols (" +:+
                      str_of_Z num_cols +:+ ") must be positive")
  else
    (* Format header row (row 1) *)
    _apply_styles 1 1 1 num_cols "header_style" ;;
    (* Format body rows (rows 2 to num_rows) *)
    _apply_styles 2 1 (num_rows - 1) num_cols "body_style".

Definition auto_adjust_cols : M (Worksheet * log) unit :=
  try_except
    (let auto_adjust_config :=
       Entry.catalog_get (visual_style_name cfg) "auto_adjust_style" in
     on <- lift (Entry.get auto_adjust_config "auto_adjust_width" (PBool false)) ;;
     if negb (truthy on) then ret tt
     else
       max_width <- lift (Entry.get auto_adjust_config "max_column_width" (PInt 60)) ;;
       s <- get ;;
       for_each (columns s.1) (λ col,
         let max_len :=
           py_max ((λ x, len (str (py_or (value (contents x)) (PStr EmptyString))))
                     <$> col) 5 in
         adjusted_width <- lift (py_min (max_len + 8) max_width) ;;
         match col with
         | x0 :: _ => modify (λ s, (set_width (column x0) adjusted_width s.1, s.2))
         | [] => raise IndexError "tuple index out of range"
         end))
    (λ e, Logger.error ("Error adjusting column widths: " +:+ exn_str e)).

Definition set_filter_mode : M (Worksheet * log) unit :=
  try_except
    (let filter_config := Entry.catalog_get (visual_style_name cfg) "filter_style" in
     on <- lift (Entry.get filter_config "mode_on" (PBool false)) ;;
     if truthy on then Logger.on_target (set_auto_filter_ref lib)
     else ret tt)
    (λ e, Logger.error ("Error setting filter mode: " +:+ exn_str e)).

Definition set_freeze_panes_style : M (Worksheet * log) unit :=
  try_except
    (let freeze_config :=
       Entry.catalog_get (visual_style_name cfg) "freeze_panes_style" in
     on <- lift (Entry.get freeze_config "mode_on" (PBool false)) ;;
     if truthy on then
       freeze_cell <- lift (Entry.get freeze_config "freeze_cell" (PStr "B2")) ;;
       Logger.on_target (set_freeze_panes lib freeze_cell)
     else ret tt)
    (λ e, Logger.error ("Error setting freeze panes: " +:+ exn_str e)).

Definition run_pipeline (df : DataFrame) : M (Worksheet * log) unit :=
  try_except
    (let col_names := df_columns df in
     let num_rows := Z.of_nat (length (df_rows df)) in
     let num_cols := Z.of_nat (length (df_columns df)) in
     format_style_header_body (num_rows + 1) num_cols ;;
     format_style_base_on_data_type col_names num_rows ;;
     set_filter_mode ;;
     auto_adjust_cols ;;
     set_freeze_panes_style)
    (λ e, Logger.error ("Error in formatting pipeline: " +:+ exn_str e) ;;
          reraise e).

End formatter.

End SetSheetFormatter.

(** ** services/excel_handler/excel_reader.py *)

Module ExcelReader.

Local Open Scope py_scope.

(** What [read] asks of the outside: whether the path exists and what
    [pd.read_excel] makes of it. *)
Record FileSystem : Type := {
  path_exists : string → bool;
  read_excel : string → result DataFrame
}.

Record ExcelReader : Type := {
  file_path : string;
  required_columns : list string
}.

(** [ExcelReader(file_path, required_columns)]: [required_columns or []] *)
Definition __init__ (path : string) (required : option (list string)) : ExcelReader :=
  {| file_path := path; required_columns := default [] required |}.

(** [sorted(s)] of a set of [str]: the one strictly increasing list of its
    elements. *)
Definition sorted (s : gset string) : list string :=
  merge_sort String.le (elements s).

Section reader.
(** [repr] of a [str], which quotes and escapes by Python's rules. *)
Context (repr : string → string) (fs : FileSystem).

(** [str(l)] for a list of [str] *)
Definition list_str (l : list string) : string :=
  "[" +:+ String.concat ", " (repr <$> l) +:+ "]".

Definition _check_file_exists (self : ExcelReader) : M (unit * log) unit :=
  if negb (path_exists fs (file_path self)) then
    raise ExcelFileNotFoundError ("Excel file not found: " +:+ file_path self)
  else ret tt.

Definition _read_excel_file (self : ExcelReader) : M (unit * log) DataFrame :=
  try_except (lift (read_excel fs (file_path self)))
    (λ e, if isinstance e ParserError then
            Logger.error ("Invalid Excel format: " +:+ exn_str e) ;;
            raise ExcelFileNotFoundError
              ("Cannot parse Excel file: " +:+ file_path self)
          else
            Logger.error ("Error reading Excel file: " +:+ exn_str e) ;;
            raise ExcelFileNotFoundError
              ("Cannot read Excel file: " +:+ file_path self)).

Definition missing_message (missing_cols available_cols : gset string) : string :=
  "Excel file missing required columns: " +:+ list_str (sorted missing_cols) +:+
  ". Available columns: " +:+ list_str (sorted available_cols).

Definition _validate_columns (self : ExcelReader) (df : DataFrame)
  : M (unit * log) unit :=
  if bool_decide (required_columns self = []) then
    (* No validation needed *)
    ret tt
  else
    let available_cols : gset string := list_to_set (df_columns df) in
    let required_set : gset string := list_to_set (required_columns self) in
    let missing_cols := required_set ∖ available_cols in
    if bool_decide (missing_cols ≠ ∅) then
      raise_exn {| exn_cls := ValidationError;
                 exn_message := missing_message missing_cols available_cols;
                 exn_field := "columns" |}
    else ret tt.

Definition read (self : ExcelReader) : M (unit * log) DataFrame :=
  _check_file_exists self ;;
  df <- _read_excel_file self ;;
  _validate_columns self df ;;
  ret df.

End reader.

End ExcelReader.

(** ** services/excel_handler/excel_writer.py: the constructor *)

Module ExcelWriter.

Local Open Scope py_scope.

(** [_create_workbook]: a new workbook with its default sheet removed. *)
Definition _create_workbook : Workbook :=
  {| _named_styles := _named_styles new_Workbook; worksheets := [] |}.

(** [ExcelWriter()]: the workbook of the state is [self.workbook]; the
    formatter is built on it, which registers the styles.  When that
    raises, no writer exists and nothing can be exported. *)
Definition __init__ (cfg : Config) (lib : Renderer) : M (Workbook * log) unit :=
  modify (λ s, (_create_workbook, s.2)) ;;
  SetSheetFormatter.__init__ cfg lib.

End ExcelWriter.

(** ** services/excel_handler/excel_writer.py: the methods of the writer *)

Module ExcelWriterMethods.

Local Open Scope py_scope.

(** [enumerate(l, start)] *)
Fixpoint enumerate {A : Type} (start : Z) (l : list A) : list (Z * A) :=
  match l with
  | [] => []
  | x :: l' => (start, x) :: enumerate (start + 1) l'
  end.

(** [dataframe_to_rows(df, index=False, header=True)]: the labels, then the
    data rows. *)
Definition dataframe_to_rows (df : DataFrame) : list (list pyval) :=
  (PStr <$> df_columns df) :: df_rows df.

(** [ws.append(row)] when the sheet's last row is [row_idx - 1] (the library
    keeps that count itself; on a sheet filled by [append] alone it is the
    number of rows appended so far): the values go to row [row_idx], from
    column 1 on, one cell per value. *)
Definition append (row_idx : Z) (row : list pyval) (ws : Worksheet) : Worksheet :=
  foldl (λ w cv, set_cell_value row_idx cv.1 cv.2 w) ws (enumerate 1 row).

(** What saving gives: the file is written, the destination refuses the
    write ([PermissionError]), or anything else fails. *)
Inductive save_outcome : Type :=
| Saved
| PermissionDenied
| SaveFailed (e : exn).

(** What the export asks of the outside.  [sheet_title] is the library's
    [create_sheet]: from the titles the workbook has and the title asked for,
    the title the new sheet gets, or the refusal of a title it cannot take.
    [output_path] is [PATH["OUTPUT_DIR"] / file_name] (the constant [PATH] is
    not in [shared/constants.py]).  [save_to] is the making of the parent
    directory followed by [workbook.save]. *)
Record Outside : Type := {
  sheet_title : list string → string → result string;
  output_path : string → string;
  save_to : string → Workbook → save_outcome
}.

(** The writer's workbook, and the files written so far, oldest first. *)
Record World : Type := {
  workbook : Workbook;
  disk : list (string * Workbook)
}.

(** Run a method on the sheet at position [i] of the workbook: the sheet
    object is shared, so what the method does to it is seen in the
    workbook, also when the method raises. *)
Definition on_sheet {A : Type} (i : nat) (m : M (Worksheet * log) A) : M (World * log) A :=
  λ s,
    let wb := workbook s.1 in
    let entry := default ("Sheet", empty_sheet) (worksheets wb !! i) in
    let (r, s') := m (entry.2, s.2) in
    (r, ({| workbook := {| _named_styles := _named_styles wb;
                           worksheets := <[i := (entry.1, s'.1)]> (worksheets wb) |};
            disk := disk s.1 |}, s'.2)).

(** [self.workbook.create_sheet(title=sheet_name)]: a new empty sheet, last
    in the workbook; the result is its position. *)
Definition create_sheet (out : Outside) (sheet_name : string) : M (World * log) nat :=
  s <- get ;;
  let wb := workbook s.1 in
  title <- lift (sheet_title out ((worksheets wb).*1) sheet_name) ;;
  modify (λ s, ({| workbook := {| _named_styles := _named_styles wb;
                                  worksheets := worksheets wb ++ [(title, empty_sheet)] |};
                   disk := disk s.1 |}, s.2)) ;;
  ret (length (worksheets wb)).

Section writer.
Context (cfg : Config) (lib : Renderer) (out : Outside).

Definition add_sheet (df : DataFrame) (sheet_name : string) : M (World * log) nat :=
  if bool_decide (sheet_name = EmptyString) then
    raise ValueError ("sheet_name must be non-empty string, got: " +:+ sheet_name)
  else
    (* Create new sheet *)
    ws <- create_sheet out sheet_name ;;
    (* Write data to sheet *)
    for_each (enumerate 0 (dataframe_to_rows df)) (λ ir,
      on_sheet ws (modify (λ s, (append (ir.1 + 1) ir.2 s.1, s.2)))) ;;
    ret ws.

(** [self.formatter] is set by the constructor and never [None]. *)
Definition format_sheet (ws : nat) (df : DataFrame) : M (World * log) unit :=
  on_sheet ws (SetSheetFormatter.run_pipeline cfg lib df).

Definition save (file_path : string) : M (World * log) unit :=
  s <- get ;;
  match save_to out file_path (workbook s.1) with
  | Saved =>
      modify (λ s, ({| workbook := workbook s.1;
                       disk := disk s.1 ++ [(file_path, workbook s.1)] |}, s.2))
  | PermissionDenied =>
      Logger.error ("Permission denied when saving: " +:+ file_path) ;;
      raise ExcelFileNotFoundError
        ("Cannot write to file (permission denied): " +:+ file_path)
  | SaveFailed e =>
      Logger.error ("Error saving workbook to " +:+ file_path +:+ ": " +:+ exn_str e) ;;
      raise ExcelFileNotFoundError ("Cannot save Excel file: " +:+ file_path)
  end.

(** [sheet_name[i] if sheet_name else f"Sheet{i+1}"]: a missing or empty
    list of names is falsy. *)
Definition name_of_sheet (sheet_name : option (list string)) (i : Z)
  : M (World * log) string :=
  match sheet_name with
  | Some (n :: ns) =>
      match (n :: ns) !! Z.to_nat i with
      | Some t => ret t
      | None => raise IndexError "list index out of range"
      end
  | _ => ret ("Sheet" +:+ str_of_Z (i + 1))
  end.

Definition export_pipeline (file_name : string) (dfs : list DataFrame)
    (sheet_name : option (list string)) : M (World * log) unit :=
  if bool_decide (file_name = EmptyString) then
    raise ConfigError "file_name must be provided for export"
  else
    let file_path := output_path out file_name in
    (* Add sheets *)
    for_each (enumerate 0 dfs) (λ idf,
      title <- name_of_sheet sheet_name idf.1 ;;
      ws <- add_sheet idf.2 title ;;
      (* Format sheets *)
      format_sheet ws idf.2) ;;
    (* Save *)
    save file_path.

End writer.

End ExcelWriterMethods.

(** * The vocabulary of the statements *)

Import SetSheetFormatter.
Import ExcelWriterMethods.

(** The sheet fields that styling leaves alone. *)
Definition same_layout (ws ws' : Worksheet) : Prop :=
  column_dimensions ws' = column_dimensions ws
  ∧ auto_filter_ref ws' = auto_filter_ref ws
  ∧ freeze_panes ws' = freeze_panes ws.

(** The sheet after the two nested loops of [_apply_styles]. *)
Definition paint (rows cols : list Z) (s : string) (ws : Worksheet) : Worksheet :=
  foldl (λ w r, foldl (λ w c, set_cell_style r c s w) w cols) ws rows.

(** The name whose first occurrence is at the 1-based position [c]. *)
Definition first_occurrence_at (cols : list string) (c : Z) : option string :=
  if bool_decide (1 ≤ c) then
    match cols !! Z.to_nat (c - 1) with
    | Some col =>
        if bool_decide (list_index col cols = Some (Z.to_nat (c - 1))) then Some col
        else None
    | None => None
    end
  else None.

(** The body of the loop of [format_style_base_on_data_type]. *)
Definition type_style_step (cfg : Config) (full : list string) (num_rows : Z) (col : string)
  : M (Worksheet * log) unit :=
  match list_index col full with
  | Some i => _apply_styles 2 (Z.of_nat i + 1) num_rows 1 (cfg_style_name cfg col)
  | None => raise ValueError ("'" +:+ col +:+ "' is not in list")
  end.

(** Steps 3 to 5 of [run_pipeline], in order. *)
Definition cosmetic_steps (cfg : Config) (lib : Renderer) : M (Worksheet * log) unit :=
  (set_filter_mode cfg lib ;;
   auto_adjust_cols cfg ;;
   set_freeze_panes_style cfg lib)%py.

(** The length the width step measures for the cell at (r, c): a falsy value
    counts as the empty string. *)
Definition measured (ws : Worksheet) (r c : Z) : Z :=
  len (str (py_or (value (cell ws r c)) (PStr EmptyString))).

(** The content length of column [c], as the width step computes it. *)
Definition max_len (ws : Worksheet) (c : Z) : Z :=
  py_max ((λ r, measured ws r c) <$> range 1 (max_row ws + 1)) 5.

(** The body of the loop of [auto_adjust_cols]. *)
Definition width_step (max_width : pyval) (col : list located) : M (Worksheet * log) unit :=
  let max_len :=
    py_max ((λ x, len (str (py_or (value (contents x)) (PStr EmptyString)))) <$> col) 5 in
  (adjusted_width <- lift (py_min (max_len + 8) max_width) ;;
   match col with
   | x0 :: _ => modify (λ s, (set_width (column x0) adjusted_width s.1, s.2))
   | [] => raise IndexError "tuple index out of range"
   end)%py.

(** The workbook with the styles [sts] registered after its own. *)
Definition with_styles (wb : Workbook) (sts : list NamedStyle) : Workbook :=
  {| _named_styles := _named_styles wb ++ sts; worksheets := worksheets wb |}.

(** What [build_bulk_named_style] returns on the shipped catalogs. *)
Definition shipped_named_styles : list (option NamedStyle) :=
  Eval vm_compute in
    match build_bulk_named_style (T := unit) constants (tt, []) with
    | (Ok lst, _) => lst
    | (Raise _, _) => []
    end.

(** The workbook a writer starts from, once the shipped styles are registered. *)
Definition shipped_workbook : Workbook :=
  {| _named_styles :=
       _named_styles ExcelWriter._create_workbook ++ omap id shipped_named_styles;
     worksheets := [] |}.

(** The style the data cells of column [c] end with: the style resolved for
    the name first occurring there, or [body_style] when no name does. *)
Definition data_style_at (cfg : Config) (cols : list string) (c : Z) : string :=
  match first_occurrence_at cols c with
  | Some col => cfg_style_name cfg col
  | None => "body_style"
  end.

(** Steps 1 and 2 of [run_pipeline] on a table of columns [cols] and [n]
    data rows. *)
Definition structural_steps (cfg : Config) (cols : list string) (n : Z)
  : M (Worksheet * log) unit :=
  (format_style_header_body (n + 1) (Z.of_nat (length cols)) ;;
   format_style_base_on_data_type cfg cols n)%py.

(** A computation that only adds records to the log: from every state it
    gives the same result and the same records, and leaves the object alone. *)
Definition log_only {T A : Type} (m : M (T * log) A) : Prop :=
  ∃ r w, ∀ s, m s = (r, (s.1, s.2 ++ w)).

(** Every value a computation returns satisfies [P]. *)
Definition returns {S A : Type} (P : A → Prop) (m : M S A) : Prop :=
  ∀ s a s', m s = (Ok a, s') → P a.

(** The sheets of the writer's workbook, with their titles. *)
Definition sheets (w : World) : list (string * Worksheet) := worksheets (workbook w).

(** The world with the entry [e] at position [i] of its sheets. *)
Definition put_sheet (i : nat) (e : string * Worksheet) (w : World) : World :=
  {| workbook := {| _named_styles := _named_styles (workbook w);
                    worksheets := <[i := e]> (worksheets (workbook w)) |};
     disk := disk w |}.

(** The world with one more sheet, last. *)
Definition with_new_sheet (e : string * Worksheet) (w : World) : World :=
  {| workbook := {| _named_styles := _named_styles (workbook w);
                    worksheets := worksheets (workbook w) ++ [e] |};
     disk := disk w |}.

(** The rows [rows] appended to a sheet, the first of them as row [start]. *)
Definition write_rows (start : Z) (rows : list (list pyval)) (ws : Worksheet) : Worksheet :=
  foldl (λ w ir, append (ir.1 + 1) ir.2 w) ws (enumerate (start - 1) rows).

(** The sheet [add_sheet] fills for a table. *)
Definition table_sheet (df : DataFrame) : Worksheet :=
  write_rows 1 (dataframe_to_rows df) empty_sheet.

(** The value a table puts at row [r], column [c] of its sheet: the label
    of column [c] in row 1, the [c]-th value of data row [r - 1] below. *)
Definition table_value (df : DataFrame) (r c : Z) : option pyval :=
  if bool_decide (1 ≤ r ∧ 1 ≤ c) then
    match dataframe_to_rows df !! Z.to_nat (r - 1) with
    | Some row => row !! Z.to_nat (c - 1)
    | None => None
    end
  else None.

(** A computation that relates the object it runs on to the object it
    leaves by [R], however it ends. *)
Definition preserves {T A : Type} (R : T → T → Prop) (m : M (T * log) A) : Prop :=
  ∀ s r s', m s = (r, s') → R s.1 s'.1.

(** The cells are left as they are. *)
Definition same_cells (ws ws' : Worksheet) : Prop := _cells ws' = _cells ws.

(** A library whose filter and freeze setters leave the cells alone,
    whether they return or raise. *)
Definition keeps_cells (lib : Renderer) : Prop :=
  (∀ ws r ws', set_auto_filter_ref lib ws = (r, ws') → same_cells ws ws')
  ∧ (∀ v ws r ws', set_freeze_panes lib v ws = (r, ws') → same_cells ws ws').

(** The title the export asks for its [i]-th table, when it can tell. *)
Definition asked_title (names : option (list string)) (i : nat) : option string :=
  match names with
  | Some (n :: ns) => (n :: ns) !! i
  | _ => Some ("Sheet" +:+ str_of_Z (Z.of_nat i + 1))
  end.

(** The sheet of a table once it is formatted: in every cell of the table's
    rectangle the table's value (none where a row is short), with
    [header_style] in row 1 and the style of its column below; outside the
    rectangle, what a longer row has put there, with the style [Normal]. *)
Definition formatted_cell (cfg : Config) (df : DataFrame) (r c : Z) : option Cell :=
  let blank_or v := default blank_cell ((λ v, {| value := v; style := "Normal" |}) <$> v) in
  if bool_decide (r = 1 ∧ 1 ≤ c ≤ Z.of_nat (length (df_columns df))) then
    Some (with_style "header_style" (blank_or (table_value df r c)))
  else if bool_decide (2 ≤ r ≤ Z.of_nat (length (df_rows df)) + 1
                       ∧ 1 ≤ c ≤ Z.of_nat (length (df_columns df))) then
    Some (with_style (data_style_at cfg (df_columns df) c) (blank_or (table_value df r c)))
  else (λ v, {| value := v; style := "Normal" |}) <$> table_value df r c.

(** No cell is lost and no value is changed. *)
Definition keeps_data (ws ws' : Worksheet) : Prop :=
  ∀ r c, value (cell ws' r c) = value (cell ws r c)
         ∧ (is_Some (_cells ws !! (r, c)) → is_Some (_cells ws' !! (r, c))).

(** One turn of the loop of [export_pipeline]. *)
Definition export_step (cfg : Config) (lib : Renderer) (out : Outside)
    (sheet_name : option (list string)) (idf : Z * DataFrame) : M (World * log) unit :=
  (title <- name_of_sheet sheet_name idf.1 ;;
   ws <- add_sheet out idf.2 title ;;
   format_sheet cfg lib ws idf.2)%py.

(** The world once the workbook is saved to [path]. *)
Definition with_file (path : string) (w : World) : World :=
  {| workbook := workbook w; disk := disk w ++ [(path, workbook w)] |}.


(** The names given cover [n] tables: there is none (the export then
    numbers the sheets), or each of the first [n] is there and not empty. *)
Definition names_cover (sheet_name : option (list string)) (n : nat) : Prop :=
  match sheet_name with
  | Some (x :: ns) =>
      (n ≤ length (x :: ns))%nat
      ∧ ∀ i t, (i < n)%nat → (x :: ns) !! i = Some t → t ≠ EmptyString
  | _ => True
  end.


(** ** Inputs the statements are tried on *)

(** A renderer whose freeze setter refuses every anchor. *)
Definition refusing_renderer : Renderer :=
  {| set_auto_filter_ref := ret tt;
     set_freeze_panes := λ _, raise ValueError "not a valid coordinate";
     repr_NamedStyle := name |}.

(** A file that reads as a table of two columns, and the quoting of plain
    names. *)
Definition sample_fs : ExcelReader.FileSystem :=
  {| ExcelReader.path_exists := λ _, true;
     ExcelReader.read_excel := λ _, Ok {| df_columns := ["status"; "name"]; df_rows := [] |} |}.

Definition quoted (s : string) : string := "'" +:+ s +:+ "'".

(** Two catalogs that share the key [header_style]. *)
Definition duplicated_catalogs : Config :=
  {| declare_data_type := DECLARE_DATA_TYPE_CONFIG;
     map_data_type_style_name := MAP_DATA_TYPE_STYLE_NAME_CONFIG;
     data_type_style_name := [("header_style", EDict [("format", PStr "General")])];
     visual_style_name := [("header_style", EDict [("font_name", PStr "Calibri")])] |}.

(** The shipped catalogs, with a header style left without attributes. *)
Definition falsy_entry_catalogs : Config :=
  {| declare_data_type := DECLARE_DATA_TYPE_CONFIG;
     map_data_type_style_name := MAP_DATA_TYPE_STYLE_NAME_CONFIG;
     data_type_style_name := [("default_style", EDict [("format", PStr "General")])];
     visual_style_name :=
       [("header_style", EDict []);
        ("body_style", EDict [("alignment_horizontal", PStr "left")])] |}.

(** A sheet with a value in A1 and in C1, and nothing in column B. *)
Definition gap_sheet : Worksheet :=
  set_cell_value 1 3 (PStr "y") (set_cell_value 1 1 (PStr "x") empty_sheet).

(** Catalogs with the filter switched off, a freeze style without a switch
    and no auto-adjust style at all. *)
Definition quiet_catalogs : Config :=
  {| declare_data_type := DECLARE_DATA_TYPE_CONFIG;
     map_data_type_style_name := MAP_DATA_TYPE_STYLE_NAME_CONFIG;
     data_type_style_name := DATA_TYPE_STYLE_NAME_CONFIG;
     visual_style_name :=
       [("filter_style", EDict [("mode_on", PBool false)]);
        ("freeze_panes_style", EDict [("freeze_cell", PStr "B2")])] |}.


(** An outside that takes every title as asked, writes below [out/] and
    never fails to save; and one whose output directory is read-only. *)
Definition accepting_outside : Outside :=
  {| sheet_title := λ _ t, Ok t;
     output_path := λ f, "out/" +:+ f;
     save_to := λ _ _, Saved |}.


(** A table of two columns and two rows, and one without columns. *)
Definition people : DataFrame :=
  {| df_columns := ["Name"; "number_decimal"];
     df_rows := [[PStr "Alice"; PInt 30]; [PStr "Bob"; PInt 25]] |}.

Definition no_columns : DataFrame := {| df_columns := []; df_rows := [] |}.

(** A writer's world before anything is written. *)
Definition fresh_world : World := {| workbook := shipped_workbook; disk := [] |}.

(** Two tables exported by a fresh writer, with numbered sheets. *)
Definition exported_people : result unit * (World * log) :=
  export_pipeline constants refusing_renderer accepting_outside "report.xlsx"
    [people; people] None (fresh_world, []).

(** * Properties *)

(** Decidable facts about closed terms are settled by evaluation. *)
Ltac by_evaluation := apply (bool_decide_unpack _); vm_compute; exact I.

(** ** Running the monad *)

Section monad_facts.
Context {S : Type}.

Lemma bind_ok {A B} (m : M S A) (k : A → M S B) s a s' :
  m s = (Ok a, s') → bind m k s = k a s'.
Proof. intros E. unfold bind. by rewrite E. Qed.

(** A handler that returns makes the whole [try] return. *)
Lemma try_except_returns (body : M S unit) (handler : exn → M S unit) :
  (∀ e s, ∃ s', handler e s = (Ok tt, s')) →
  ∀ s, ∃ s', try_except body handler s = (Ok tt, s').
Proof.
  intros Hh s. unfold try_except.
  destruct (body s) as [[[]|e] s1]; [by eexists | apply Hh].
Qed.

End monad_facts.

(** ** Style resolution (section 4.3) *)

Lemma cfg_data_type_cases (col : string) :
  cfg_data_type constants col ∈
    ["date_time"; "date"; "int"; "float"; "currency"; "percentage"; "default_data_type"].
Proof.
  unfold cfg_data_type.
  destruct (declare_data_type constants !! col) as [ty|] eqn:E; simpl; [|set_solver].
  apply (elem_of_list_to_map_2 (M := gmap string)) in E.
  repeat (apply elem_of_cons in E as [E|E]; [injection E as _ <-; set_solver|]).
  by apply elem_of_nil in E.
Qed.

Lemma cfg_style_name_cases (col : string) :
  cfg_style_name constants col ∈
    ["date_time_style"; "date_style"; "int_style"; "float_style"; "currency_style";
     "percentage_style"; "default_style"].
Proof.
  unfold cfg_style_name. pose proof (cfg_data_type_cases col) as H.
  repeat (apply elem_of_cons in H as [->|H]; [vm_compute; set_solver|]).
  by apply elem_of_nil in H.
Qed.

Lemma build_bulk_named_style_constants {T} (t : T) (l : log) :
  build_bulk_named_style constants (t, l) = (Ok shipped_named_styles, (t, l)).
Proof. vm_compute. reflexivity. Qed.

Lemma ExcelWriter_init_constants (lib : Renderer) (wb : Workbook) (l : log) :
  ExcelWriter.__init__ constants lib (wb, l) = (Ok tt, (shipped_workbook, l)).
Proof. vm_compute. reflexivity. Qed.

(** C1. For every column name, configured or not, the two lookups of
    [format_style_base_on_data_type] (column name to data type, falling back
    to [default_data_type]; data type to style name, falling back to
    [default_style]) end in a style name that is a key of one of the two style
    catalogs, that [build_bulk_named_style] builds a style for, and that the
    workbook has registered once the writer is constructed. *)
Theorem cfg_style_name_registered (col : string) :
  let s := cfg_style_name constants col in
  (s ∈ dict_keys VISUAL_STYLE_NAME_CONFIG ∨ s ∈ dict_keys DATA_TYPE_STYLE_NAME_CONFIG)
  ∧ (∃ lst, (∀ l, build_bulk_named_style (T := unit) constants (tt, l) = (Ok lst, (tt, l)))
            ∧ ∃ st, Some st ∈ lst ∧ name st = s)
  ∧ (∀ lib wb l, ∃ wb',
       ExcelWriter.__init__ constants lib (wb, l) = (Ok tt, (wb', l))
       ∧ s ∈ style_names wb').
Proof.
  intros s. subst s. pose proof (cfg_style_name_cases col) as H.
  split; [|split].
  - right.
    repeat (apply elem_of_cons in H as [->|H]; [by_evaluation|]).
    by apply elem_of_nil in H.
  - exists shipped_named_styles. split.
    { intros l. apply build_bulk_named_style_constants. }
    assert (cfg_style_name constants col ∈ name <$> omap id shipped_named_styles) as Hin.
    { repeat (apply elem_of_cons in H as [->|H]; [by_evaluation|]).
      by apply elem_of_nil in H. }
    apply list_elem_of_fmap in Hin as (st & -> & Hst).
    apply list_elem_of_omap in Hst as (o & Ho & Heq). simpl in Heq. subst o.
    by exists st.
  - intros lib wb l. exists shipped_workbook. split.
    { apply ExcelWriter_init_constants. }
    repeat (apply elem_of_cons in H as [->|H]; [by_evaluation|]).
    by apply elem_of_nil in H.
Qed.

(** ** Styling a range of cells *)

Lemma elem_of_range (a b x : Z) : x ∈ range a b ↔ a ≤ x < b.
Proof.
  unfold range. rewrite list_elem_of_fmap. split.
  - intros (i & -> & Hi). apply elem_of_seq in Hi. lia.
  - intros H. exists (Z.to_nat (x - a)). split; [lia|]. apply elem_of_seq. lia.
Qed.

Lemma set_cell_style_lookup (r c : Z) (s : string) (ws : Worksheet) (k : Z * Z) :
  _cells (set_cell_style r c s ws) !! k =
  if bool_decide (k = (r, c)) then Some (with_style s (cell ws r c)) else _cells ws !! k.
Proof.
  simpl. case_bool_decide as Hk.
  - subst k. apply lookup_insert_eq.
  - by apply lookup_insert_ne.
Qed.

Lemma cell_set_cell_style (r c : Z) (s : string) (ws : Worksheet) (r' c' : Z) :
  cell (set_cell_style r c s ws) r' c' =
  if bool_decide ((r', c') = (r, c)) then with_style s (cell ws r c) else cell ws r' c'.
Proof.
  unfold cell at 1. rewrite set_cell_style_lookup. by case_bool_decide.
Qed.

Lemma paint_row_lookup (r : Z) (cols : list Z) (s : string) (ws : Worksheet) (r' c' : Z) :
  _cells (foldl (λ w c, set_cell_style r c s w) ws cols) !! (r', c') =
  if bool_decide (r' = r ∧ c' ∈ cols) then Some (with_style s (cell ws r' c'))
  else _cells ws !! (r', c').
Proof.
  revert ws. induction cols as [|c cols IH]; intros ws; simpl.
  - case_bool_decide as H; [|done]. destruct H as [_ H]. by apply elem_of_nil in H.
  - rewrite IH, cell_set_cell_style, set_cell_style_lookup.
    destruct (decide ((r', c') = (r, c))) as [Heq|Hne].
    + injection Heq as -> ->.
      rewrite (bool_decide_eq_true_2 ((r, c) = (r, c))) by done.
      rewrite (bool_decide_eq_true_2 (r = r ∧ c ∈ c :: cols)) by (split; [done|left]).
      by case_bool_decide.
    + rewrite (bool_decide_eq_false_2 _ Hne).
      assert (r' = r ∧ c' ∈ c :: cols ↔ r' = r ∧ c' ∈ cols) as Hiff.
      { split; intros [Hr Hc]; (split; [done|]); [|by right].
        apply elem_of_cons in Hc as [Hc|Hc]; [|done].
        exfalso. apply Hne. by rewrite Hr, Hc. }
      by rewrite (bool_decide_ext _ _ Hiff).
Qed.

Lemma cell_paint_row (r : Z) (cols : list Z) (s : string) (ws : Worksheet) (r' c' : Z) :
  cell (foldl (λ w c, set_cell_style r c s w) ws cols) r' c' =
  if bool_decide (r' = r ∧ c' ∈ cols) then with_style s (cell ws r' c') else cell ws r' c'.
Proof.
  unfold cell at 1. rewrite paint_row_lookup. by case_bool_decide.
Qed.

Lemma paint_lookup (rows cols : list Z) (s : string) (ws : Worksheet) (r' c' : Z) :
  _cells (paint rows cols s ws) !! (r', c') =
  if bool_decide (r' ∈ rows ∧ c' ∈ cols) then Some (with_style s (cell ws r' c'))
  else _cells ws !! (r', c').
Proof.
  unfold paint. revert ws. induction rows as [|r rows IH]; intros ws; simpl; [done|].
  rewrite IH, cell_paint_row, paint_row_lookup.
  destruct (decide (r' = r ∧ c' ∈ cols)) as [[-> Hc]|Hne].
  - rewrite (bool_decide_eq_true_2 (r ∈ r :: rows ∧ c' ∈ cols)) by (split; [left|done]).
    rewrite (bool_decide_eq_true_2 (r = r ∧ c' ∈ cols)) by done.
    by case_bool_decide.
  - rewrite (bool_decide_eq_false_2 _ Hne).
    assert (r' ∈ r :: rows ∧ c' ∈ cols ↔ r' ∈ rows ∧ c' ∈ cols) as Hiff.
    { split; intros [Hr Hc]; (split; [|done]); [|by right].
      apply elem_of_cons in Hr as [Hr|Hr]; [|done].
      exfalso. by apply Hne. }
    by rewrite (bool_decide_ext _ _ Hiff).
Qed.

Lemma cell_paint (rows cols : list Z) (s : string) (ws : Worksheet) (r' c' : Z) :
  cell (paint rows cols s ws) r' c' =
  if bool_decide (r' ∈ rows ∧ c' ∈ cols) then with_style s (cell ws r' c') else cell ws r' c'.
Proof.
  unfold cell at 1. rewrite paint_lookup. by case_bool_decide.
Qed.

Lemma paint_frame (rows cols : list Z) (s : string) (ws : Worksheet) :
  column_dimensions (paint rows cols s ws) = column_dimensions ws
  ∧ auto_filter_ref (paint rows cols s ws) = auto_filter_ref ws
  ∧ freeze_panes (paint rows cols s ws) = freeze_panes ws.
Proof.
  unfold paint. revert ws. induction rows as [|r rows IH]; intros ws; simpl; [done|].
  destruct (IH (foldl (λ w c, set_cell_style r c s w) ws cols)) as (-> & -> & ->).
  clear IH. revert ws. induction cols as [|c cols IH]; intros ws; simpl; [done|].
  by destruct (IH (set_cell_style r c s ws)) as (-> & -> & ->).
Qed.

(** [_apply_styles] from a valid corner paints the rectangle and returns. *)
Lemma _apply_styles_run (row_idx col_idx num_rows num_cols : Z) (s : string)
    (ws : Worksheet) (l : log) :
  1 ≤ row_idx → 1 ≤ col_idx →
  _apply_styles row_idx col_idx num_rows num_cols s (ws, l) =
  (Ok tt, (paint (range row_idx (row_idx + num_rows))
                 (range col_idx (col_idx + num_cols)) s ws, l)).
Proof.
  intros Hr Hc. unfold _apply_styles.
  rewrite bool_decide_eq_false_2 by lia. unfold paint.
  generalize (range row_idx (row_idx + num_rows)) as rows.
  intros rows. revert ws. induction rows as [|r rows IH]; intros ws; simpl; [done|].
  erewrite bind_ok; [apply IH|].
  generalize (range col_idx (col_idx + num_cols)) as cols.
  intros cols. clear IH. revert ws. induction cols as [|c cols IH]; intros ws; simpl; [done|].
  erewrite bind_ok; [apply IH|]. done.
Qed.

(** ** Header and body styling (section 4.4, step 1) *)

(** What [format_style_header_body] does to a sheet it accepts. *)
Lemma header_body_cells (N C : Z) (ws : Worksheet) (l : log) :
  1 ≤ N → 1 ≤ C →
  ∃ ws', format_style_header_body N C (ws, l) = (Ok tt, (ws', l))
    ∧ (∀ r c, _cells ws' !! (r, c) =
         if bool_decide (r = 1 ∧ 1 ≤ c ≤ C) then
           Some (with_style "header_style" (cell ws r c))
         else if bool_decide (2 ≤ r ≤ N ∧ 1 ≤ c ≤ C) then
           Some (with_style "body_style" (cell ws r c))
         else _cells ws !! (r, c))
    ∧ same_layout ws ws'.
Proof.
  intros HN HC. unfold format_style_header_body.
  rewrite bool_decide_eq_false_2 by lia.
  erewrite bind_ok by (apply _apply_styles_run; lia).
  rewrite _apply_styles_run by lia.
  eexists. split; [reflexivity|]. split.
  - intros r c. rewrite paint_lookup, cell_paint, paint_lookup.
    rewrite (bool_decide_ext (r ∈ range 2 (2 + (N - 1)) ∧ c ∈ range 1 (1 + C))
               (2 ≤ r ≤ N ∧ 1 ≤ c ≤ C)) by (rewrite !elem_of_range; lia).
    rewrite (bool_decide_ext (r ∈ range 1 (1 + 1) ∧ c ∈ range 1 (1 + C))
               (r = 1 ∧ 1 ≤ c ≤ C)) by (rewrite !elem_of_range; lia).
    repeat case_bool_decide; try done; lia.
  - unfold same_layout.
    destruct (paint_frame (range 2 (2 + (N - 1))) (range 1 (1 + C)) "body_style"
                (paint (range 1 (1 + 1)) (range 1 (1 + C)) "header_style" ws))
      as (-> & -> & ->).
    apply paint_frame.
Qed.



(** ** Type-based styling (section 4.4, step 2) *)

Lemma list_index_lookup (x : string) (l : list string) (i : nat) :
  list_index x l = Some i → l !! i = Some x.
Proof.
  revert i. induction l as [|y l IH]; intros i; simpl; [done|].
  case_bool_decide as E.
  - intros [= <-]. by subst y.
  - destruct (list_index x l) as [j|]; simpl; [|done].
    intros [= <-]. simpl. by apply IH.
Qed.

Lemma list_index_first (x : string) (l : list string) (i j : nat) :
  list_index x l = Some i → l !! j = Some x → (i ≤ j)%nat.
Proof.
  revert i j. induction l as [|y l IH]; intros i j; simpl; [done|].
  case_bool_decide as E.
  - intros [= <-] _. lia.
  - destruct (list_index x l) as [k|] eqn:Ek; simpl; [|done].
    intros [= <-]. destruct j as [|j]; simpl.
    + intros [= ->]. done.
    + intros Hj. specialize (IH k j eq_refl Hj). lia.
Qed.

Lemma list_index_elem_of (x : string) (l : list string) :
  x ∈ l → is_Some (list_index x l).
Proof.
  induction l as [|y l IH]; simpl; [by intros H%elem_of_nil|].
  intros H. case_bool_decide as E; [by eexists|].
  apply elem_of_cons in H as [->|H]; [done|].
  destruct (IH H) as [k ->]. by eexists.
Qed.

Lemma list_index_NoDup (x : string) (l : list string) (i : nat) :
  NoDup l → l !! i = Some x → list_index x l = Some i.
Proof.
  intros Hnd Hi. destruct (list_index_elem_of x l) as [k Hk].
  { by eapply list_elem_of_lookup_2. }
  rewrite Hk. f_equal.
  eapply NoDup_lookup; [done| |done]. by apply list_index_lookup.
Qed.

Lemma first_occurrence_at_index (cols : list string) (x : string) (i : nat) :
  list_index x cols = Some i → first_occurrence_at cols (Z.of_nat i + 1) = Some x.
Proof.
  intros Hi. unfold first_occurrence_at.
  rewrite bool_decide_eq_true_2 by lia.
  replace (Z.to_nat (Z.of_nat i + 1 - 1)) with i by lia.
  rewrite (list_index_lookup _ _ _ Hi). by rewrite bool_decide_eq_true_2.
Qed.

Lemma first_occurrence_at_Some (cols : list string) (c : Z) (x : string) :
  first_occurrence_at cols c = Some x →
  ∃ i, list_index x cols = Some i ∧ c = Z.of_nat i + 1.
Proof.
  unfold first_occurrence_at. case_bool_decide as Hc; [|done].
  destruct (cols !! Z.to_nat (c - 1)) as [y|]; [|done].
  case_bool_decide as Hy; [|done]. intros [= ->].
  exists (Z.to_nat (c - 1)). split; [done|lia].
Qed.

Section type_styles.
Context (cfg : Config).

(** The loop over a part [part] of the names, indices taken in [full]:
    a column is painted when the name first occurring there is in [part]. *)
Lemma type_style_loop (full part : list string) (n : Z) (ws : Worksheet) (l : log) :
  (∀ x, x ∈ part → x ∈ full) →
  ∃ ws', for_each part (type_style_step cfg full n) (ws, l) = (Ok tt, (ws', l))
    ∧ (∀ r c, _cells ws' !! (r, c) =
         match first_occurrence_at full c with
         | Some col =>
             if bool_decide (2 ≤ r ≤ n + 1 ∧ col ∈ part) then
               Some (with_style (cfg_style_name cfg col) (cell ws r c))
             else _cells ws !! (r, c)
         | None => _cells ws !! (r, c)
         end)
    ∧ same_layout ws ws'.
Proof.
  revert ws. induction part as [|x part IH]; intros ws Hsub.
  - exists ws. split; [done|]. split; [|done].
    intros r c. destruct (first_occurrence_at full c); [|done].
    rewrite bool_decide_eq_false_2; [done|]. intros [_ H]. by apply elem_of_nil in H.
  - destruct (list_index_elem_of x full) as [i Hi]; [apply Hsub; by left|].
    set (ws1 := paint (range 2 (2 + n)) (range (Z.of_nat i + 1) (Z.of_nat i + 1 + 1))
                  (cfg_style_name cfg x) ws).
    destruct (IH ws1) as (ws' & Hrun & Hcells & Hlay).
    { intros y Hy. apply Hsub. by right. }
    exists ws'. split; [|split].
    + simpl. erewrite bind_ok; [exact Hrun|].
      unfold type_style_step. rewrite Hi. apply _apply_styles_run; lia.
    + intros r c. rewrite Hcells. unfold ws1.
      rewrite cell_paint, paint_lookup.
      rewrite (bool_decide_ext
                 (r ∈ range 2 (2 + n) ∧ c ∈ range (Z.of_nat i + 1) (Z.of_nat i + 1 + 1))
                 (2 ≤ r ≤ n + 1 ∧ c = Z.of_nat i + 1))
        by (rewrite !elem_of_range; lia).
      pose proof (first_occurrence_at_index full x i Hi) as Hx.
      destruct (first_occurrence_at full c) as [col|] eqn:Hc.
      * destruct (decide (c = Z.of_nat i + 1)) as [->|Hne].
        -- assert (col = x) as -> by congruence.
           destruct (decide (2 ≤ r ≤ n + 1)) as [Hr|Hr].
           ++ rewrite (bool_decide_eq_true_2 (2 ≤ r ≤ n + 1 ∧ _ = _)) by done.
              rewrite (bool_decide_eq_true_2 (2 ≤ r ≤ n + 1 ∧ x ∈ x :: part))
                by (split; [done|left]).
              by case_bool_decide.
           ++ rewrite !bool_decide_eq_false_2 by tauto. done.
        -- rewrite (bool_decide_eq_false_2 (2 ≤ r ≤ n + 1 ∧ c = _)) by tauto.
           assert (col ≠ x) as Hcol.
           { intros ->. apply first_occurrence_at_Some in Hc as (j & Hj & ->).
             rewrite Hi in Hj. injection Hj as ->. done. }
           rewrite (bool_decide_ext (2 ≤ r ≤ n + 1 ∧ col ∈ x :: part)
                      (2 ≤ r ≤ n + 1 ∧ col ∈ part))
             by (rewrite elem_of_cons; tauto).
           done.
      * case_bool_decide as H; [|done]. destruct H as [_ ->]. congruence.
    + unfold same_layout in *. destruct Hlay as (-> & -> & ->). apply paint_frame.
Qed.
End type_styles.

Lemma first_occurrence_at_position (cols : list string) (j : nat) (col : string) :
  first_occurrence_at cols (Z.of_nat j + 1) = Some col ↔
  cols !! j = Some col ∧ list_index col cols = Some j.
Proof.
  split.
  - intros H. apply first_occurrence_at_Some in H as (i & Hi & Hij).
    assert (i = j) as -> by lia. split; [by apply list_index_lookup|done].
  - intros [_ H]. by apply first_occurrence_at_index.
Qed.

Lemma first_occurrence_at_later (cols : list string) (i j : nat) (col : string) :
  cols !! j = Some col → list_index col cols = Some i → i ≠ j →
  first_occurrence_at cols (Z.of_nat j + 1) = None.
Proof.
  intros Hj Hi Hne. unfold first_occurrence_at.
  rewrite bool_decide_eq_true_2 by lia.
  replace (Z.to_nat (Z.of_nat j + 1 - 1)) with j by lia.
  rewrite Hj, bool_decide_eq_false_2; [done|]. congruence.
Qed.

(** C10. [format_style_base_on_data_type] finds the column of a name with
    [list.index]: on a non-empty list of names and a non-negative row count it
    returns, and the data cells (rows 2..num_rows+1) of a column take the
    style resolved for the name whose FIRST occurrence is at that position;
    every other cell is left as it was.  So each occurrence of a name is
    applied at the position of its first occurrence, the position of a later
    duplicate receives no type style, and position i receives the style of the
    i-th name for every i exactly when the names are pairwise distinct. *)
Theorem format_style_base_on_data_type_first_occurrence
    (cfg : Config) (cols : list string) (n : Z) (ws : Worksheet) (l : log) :
  cols ≠ [] → 0 ≤ n →
  ∃ ws', format_style_base_on_data_type cfg cols n (ws, l) = (Ok tt, (ws', l))
    ∧ (∀ r c, _cells ws' !! (r, c) =
         match first_occurrence_at cols c with
         | Some col =>
             if bool_decide (2 ≤ r ≤ n + 1) then
               Some (with_style (cfg_style_name cfg col) (cell ws r c))
             else _cells ws !! (r, c)
         | None => _cells ws !! (r, c)
         end)
    ∧ (∀ j col, cols !! j = Some col →
         ∃ i, list_index col cols = Some i ∧ (i ≤ j)%nat
              ∧ first_occurrence_at cols (Z.of_nat i + 1) = Some col
              ∧ (i ≠ j → first_occurrence_at cols (Z.of_nat j + 1) = None))
    ∧ (NoDup cols ↔
       ∀ j col, cols !! j = Some col → first_occurrence_at cols (Z.of_nat j + 1) = Some col).
Proof.
  intros Hne Hn.
  destruct (type_style_loop cfg cols cols n ws l) as (ws' & Hrun & Hcells & _); [done|].
  exists ws'. split; [|split; [|split]].
  - unfold format_style_base_on_data_type.
    rewrite bool_decide_eq_false_2 by done. rewrite bool_decide_eq_false_2 by lia.
    exact Hrun.
  - intros r c. rewrite Hcells.
    destruct (first_occurrence_at cols c) as [col|] eqn:Hc; [|done].
    apply first_occurrence_at_Some in Hc as (i & Hi & _).
    apply list_index_lookup, list_elem_of_lookup_2 in Hi.
    rewrite (bool_decide_ext (2 ≤ r ≤ n + 1 ∧ col ∈ cols) (2 ≤ r ≤ n + 1)) by tauto.
    done.
  - intros j col Hj.
    destruct (list_index_elem_of col cols) as [i Hi]; [by eapply list_elem_of_lookup_2|].
    exists i. repeat split.
    + done.
    + by eapply list_index_first.
    + by apply first_occurrence_at_index.
    + intros Hij. by eapply first_occurrence_at_later.
  - split.
    + intros Hnd j col Hj. apply first_occurrence_at_index. by apply list_index_NoDup.
    + intros Hall. apply NoDup_alt. intros i j x Hi Hj.
      apply Hall, first_occurrence_at_position in Hi as [_ Hi].
      apply Hall, first_occurrence_at_position in Hj as [_ Hj].
      congruence.
Qed.

Lemma format_style_base_on_data_type_first_occurrence_witness :
  ∃ ws', format_style_base_on_data_type constants ["date"; "currency"; "date"] 2
           (empty_sheet, []) = (Ok tt, (ws', []))
    ∧ style (cell ws' 2 1) = "date_time_style"
    ∧ style (cell ws' 3 2) = "currency_style"
    ∧ _cells ws' !! (2, 3) = None.
Proof.
  destruct (format_style_base_on_data_type_first_occurrence constants
              ["date"; "currency"; "date"] 2 empty_sheet [])
    as (ws' & Hrun & Hcells & _); [done|lia|].
  exists ws'. split; [exact Hrun|].
  unfold cell. rewrite !Hcells. by vm_compute.
Defined.

(** ** The structural guards (section 7) *)

(** C5, as the code has it: an invalid shape is refused with the built-in
    [ValueError], the class the two docstrings announce; the sheet and the
    log are left as they were.  [format_style_header_body] refuses
    [num_rows < 1] or [num_cols < 1]; [format_style_base_on_data_type] refuses
    a negative [num_rows] on a non-empty list of names. *)
Theorem invalid_shape_raises_ValueError :
  (∀ (num_rows num_cols : Z) (s : Worksheet * log),
     num_rows < 1 ∨ num_cols < 1 →
     format_style_header_body num_rows num_cols s =
     (Raise (Exn ValueError
               ("num_rows (" +:+ str_of_Z num_rows +:+ ") and num_cols (" +:+
                str_of_Z num_cols +:+ ") must be positive") EmptyString), s))
  ∧ (∀ (cfg : Config) (column_name_lst : list string) (num_rows : Z) (s : Worksheet * log),
       column_name_lst ≠ [] → num_rows < 0 →
       format_style_base_on_data_type cfg column_name_lst num_rows s =
       (Raise (Exn ValueError
                 ("num_rows must be non-negative, got " +:+ str_of_Z num_rows)
                 EmptyString), s)).
Proof.
  split.
  - intros num_rows num_cols s H. unfold format_style_header_body.
    by rewrite bool_decide_eq_true_2.
  - intros cfg column_name_lst num_rows s Hne H. unfold format_style_base_on_data_type.
    rewrite bool_decide_eq_false_2 by done. by rewrite bool_decide_eq_true_2.
Qed.

Lemma invalid_shape_raises_ValueError_witness :
  format_style_header_body 0 1 (empty_sheet, []) =
    (Raise (Exn ValueError "num_rows (0) and num_cols (1) must be positive" EmptyString),
     (empty_sheet, []))
  ∧ format_style_base_on_data_type constants ["date"] (-1) (empty_sheet, []) =
    (Raise (Exn ValueError "num_rows must be non-negative, got -1" EmptyString),
     (empty_sheet, [])).
Proof.
  split.
  - apply (proj1 invalid_shape_raises_ValueError 0 1 (empty_sheet, [])). lia.
  - apply (proj2 invalid_shape_raises_ValueError constants ["date"] (-1) (empty_sheet, []));
      [done|lia].
Defined.

(** C5 as stated fails: with [num_rows = 0] the call raises, and what it
    raises is a [ValueError], not a [ValidationError] (the class of
    [shared/exceptions.py], which does not derive from [ValueError]). *)
Lemma format_style_header_body_not_ValidationError :
  ∃ e, format_style_header_body 0 1 (empty_sheet, []) = (Raise e, (empty_sheet, []))
       ∧ exn_cls e = ValueError
       ∧ isinstance e ValidationError = false.
Proof. eexists. split; [reflexivity|]. split; reflexivity. Qed.

(** ** The cosmetic steps (section 4.4, steps 3 to 5) *)

Section cosmetic.
Context (cfg : Config) (lib : Renderer).

Lemma set_filter_mode_returns s : ∃ s', set_filter_mode cfg lib s = (Ok tt, s').
Proof. apply try_except_returns. intros e s0. by eexists. Qed.

Lemma auto_adjust_cols_returns s : ∃ s', auto_adjust_cols cfg s = (Ok tt, s').
Proof. apply try_except_returns. intros e s0. by eexists. Qed.

Lemma set_freeze_panes_style_returns s :
  ∃ s', set_freeze_panes_style cfg lib s = (Ok tt, s').
Proof. apply try_except_returns. intros e s0. by eexists. Qed.

Lemma cosmetic_steps_return s : ∃ s', cosmetic_steps cfg lib s = (Ok tt, s').
Proof.
  unfold cosmetic_steps.
  destruct (set_filter_mode_returns s) as [s1 H1].
  destruct (auto_adjust_cols_returns s1) as [s2 H2].
  destruct (set_freeze_panes_style_returns s2) as [s3 H3].
  exists s3. erewrite bind_ok by exact H1. erewrite bind_ok by exact H2. exact H3.
Qed.

(** Once the two structural steps have returned, [run_pipeline] is the
    three cosmetic steps, and returns. *)
Lemma run_pipeline_after_structure (df : DataFrame) s s1 s2 :
  format_style_header_body (Z.of_nat (length (df_rows df)) + 1)
    (Z.of_nat (length (df_columns df))) s = (Ok tt, s1) →
  format_style_base_on_data_type cfg (df_columns df)
    (Z.of_nat (length (df_rows df))) s1 = (Ok tt, s2) →
  ∃ s3, run_pipeline cfg lib df s = (Ok tt, s3) ∧ cosmetic_steps cfg lib s2 = (Ok tt, s3).
Proof.
  intros H1 H2. destruct (cosmetic_steps_return s2) as [s3 H3]. exists s3.
  split; [|done]. unfold run_pipeline, try_except.
  erewrite bind_ok by exact H1. erewrite bind_ok by exact H2.
  unfold cosmetic_steps in H3. by rewrite H3.
Qed.

(** A failure of the library's filter setter is caught and logged. *)
Lemma set_filter_mode_logs (ws ws' : Worksheet) (l : log) (on : pyval) (e : exn) :
  Entry.get (Entry.catalog_get (visual_style_name cfg) "filter_style") "mode_on"
    (PBool false) = Ok on →
  truthy on = true →
  set_auto_filter_ref lib ws = (Raise e, ws') →
  set_filter_mode cfg lib (ws, l) =
  (Ok tt, (ws', l ++ [(ERROR, "Error setting filter mode: " +:+ exn_str e)])).
Proof.
  intros Hget Hon Hlib. unfold set_filter_mode, try_except, bind, lift.
  rewrite Hget, Hon. unfold Logger.on_target. simpl. by rewrite Hlib.
Qed.

(** A failure of the library's freeze setter (a malformed anchor, say) is
    caught and logged. *)
Lemma set_freeze_panes_style_logs (ws ws' : Worksheet) (l : log)
    (on freeze_cell : pyval) (e : exn) :
  Entry.get (Entry.catalog_get (visual_style_name cfg) "freeze_panes_style") "mode_on"
    (PBool false) = Ok on →
  truthy on = true →
  Entry.get (Entry.catalog_get (visual_style_name cfg) "freeze_panes_style")
    "freeze_cell" (PStr "B2") = Ok freeze_cell →
  set_freeze_panes lib freeze_cell ws = (Raise e, ws') →
  set_freeze_panes_style cfg lib (ws, l) =
  (Ok tt, (ws', l ++ [(ERROR, "Error setting freeze panes: " +:+ exn_str e)])).
Proof.
  intros Hget Hon Hcell Hlib. unfold set_freeze_panes_style, try_except, bind, lift.
  rewrite Hget, Hon, Hcell. unfold Logger.on_target. simpl. by rewrite Hlib.
Qed.

(** A configuration the width step cannot read is caught and logged. *)
Lemma auto_adjust_cols_logs (s : Worksheet * log) (e : exn) :
  Entry.get (Entry.catalog_get (visual_style_name cfg) "auto_adjust_style")
    "auto_adjust_width" (PBool false) = Raise e →
  auto_adjust_cols cfg s =
  (Ok tt, (s.1, s.2 ++ [(ERROR, "Error adjusting column widths: " +:+ exn_str e)])).
Proof.
  intros Hget. unfold auto_adjust_cols, try_except, bind, lift. by rewrite Hget.
Qed.
End cosmetic.

(** C3. For every sheet, log, configuration and behaviour of the rendering
    library, each of [set_filter_mode], [auto_adjust_cols] and
    [set_freeze_panes_style] returns without raising; a failure inside one of
    them (the library refusing the filter range or the freeze anchor, a
    configuration entry that cannot be read) is caught and leaves an ERROR
    record in the log; the three steps in sequence return, and so does
    [run_pipeline] as soon as its two structural steps have returned, which
    is what lets the writer go on to save. *)
Theorem cosmetic_steps_never_raise (cfg : Config) (lib : Renderer) :
  (∀ s, ∃ s', set_filter_mode cfg lib s = (Ok tt, s'))
  ∧ (∀ s, ∃ s', auto_adjust_cols cfg s = (Ok tt, s'))
  ∧ (∀ s, ∃ s', set_freeze_panes_style cfg lib s = (Ok tt, s'))
  ∧ (∀ ws ws' l on e,
       Entry.get (Entry.catalog_get (visual_style_name cfg) "filter_style") "mode_on"
         (PBool false) = Ok on →
       truthy on = true →
       set_auto_filter_ref lib ws = (Raise e, ws') →
       set_filter_mode cfg lib (ws, l) =
       (Ok tt, (ws', l ++ [(ERROR, "Error setting filter mode: " +:+ exn_str e)])))
  ∧ (∀ s e,
       Entry.get (Entry.catalog_get (visual_style_name cfg) "auto_adjust_style")
         "auto_adjust_width" (PBool false) = Raise e →
       auto_adjust_cols cfg s =
       (Ok tt, (s.1, s.2 ++ [(ERROR, "Error adjusting column widths: " +:+ exn_str e)])))
  ∧ (∀ ws ws' l on freeze_cell e,
       Entry.get (Entry.catalog_get (visual_style_name cfg) "freeze_panes_style") "mode_on"
         (PBool false) = Ok on →
       truthy on = true →
       Entry.get (Entry.catalog_get (visual_style_name cfg) "freeze_panes_style")
         "freeze_cell" (PStr "B2") = Ok freeze_cell →
       set_freeze_panes lib freeze_cell ws = (Raise e, ws') →
       set_freeze_panes_style cfg lib (ws, l) =
       (Ok tt, (ws', l ++ [(ERROR, "Error setting freeze panes: " +:+ exn_str e)])))
  ∧ (∀ s, ∃ s', cosmetic_steps cfg lib s = (Ok tt, s'))
  ∧ (∀ df s s1 s2,
       format_style_header_body (Z.of_nat (length (df_rows df)) + 1)
         (Z.of_nat (length (df_columns df))) s = (Ok tt, s1) →
       format_style_base_on_data_type cfg (df_columns df)
         (Z.of_nat (length (df_rows df))) s1 = (Ok tt, s2) →
       ∃ s3, run_pipeline cfg lib df s = (Ok tt, s3)
             ∧ cosmetic_steps cfg lib s2 = (Ok tt, s3)).
Proof.
  repeat split.
  - apply set_filter_mode_returns.
  - apply auto_adjust_cols_returns.
  - apply set_freeze_panes_style_returns.
  - intros. by eapply set_filter_mode_logs.
  - intros. by apply auto_adjust_cols_logs.
  - intros. by eapply set_freeze_panes_style_logs.
  - apply cosmetic_steps_return.
  - intros. by eapply run_pipeline_after_structure.
Qed.

Lemma cosmetic_steps_never_raise_witness :
  set_freeze_panes_style constants refusing_renderer (empty_sheet, []) =
  (Ok tt, (empty_sheet, [(ERROR, "Error setting freeze panes: not a valid coordinate")])).
Proof.
  apply (proj1 (proj2 (proj2 (proj2 (proj2 (proj2
           (cosmetic_steps_never_raise constants refusing_renderer))))))
         empty_sheet empty_sheet [] (PBool true) (PStr "B2")
         (Exn ValueError "not a valid coordinate" EmptyString));
    reflexivity.
Defined.

(** ** A table without data rows *)

Lemma type_style_loop_zero (cfg : Config) (full part : list string) (s : Worksheet * log) :
  (∀ x, x ∈ part → x ∈ full) →
  for_each part (type_style_step cfg full 0) s = (Ok tt, s).
Proof.
  intros Hsub. induction part as [|x part IH]; simpl; [done|].
  erewrite bind_ok; [apply IH; intros y Hy; apply Hsub; by right|].
  destruct (list_index_elem_of x full) as [i Hi]; [apply Hsub; by left|].
  unfold type_style_step. rewrite Hi. destruct s as [ws l].
  rewrite _apply_styles_run by lia. done.
Qed.

(** C9. For a table with no data row and at least one column,
    [run_pipeline] calls [format_style_header_body] with [num_rows = 1]; that
    call returns, gives the cells of row 1, columns 1..num_cols, the style
    [header_style] and touches no other cell (no body cell is styled);
    [format_style_base_on_data_type] with [num_rows = 0] then returns and
    leaves the sheet and the log exactly as they were; neither step raises,
    and the pipeline goes on through the cosmetic steps and returns. *)
Theorem empty_table_structural_steps
    (cfg : Config) (lib : Renderer) (df : DataFrame) (ws : Worksheet) (l : log) :
  df_rows df = [] → df_columns df ≠ [] →
  let num_rows := Z.of_nat (length (df_rows df)) in
  let num_cols := Z.of_nat (length (df_columns df)) in
  num_rows + 1 = 1
  ∧ ∃ ws1,
      format_style_header_body (num_rows + 1) num_cols (ws, l) = (Ok tt, (ws1, l))
      ∧ (∀ r c, _cells ws1 !! (r, c) =
           if bool_decide (r = 1 ∧ 1 ≤ c ≤ num_cols) then
             Some (with_style "header_style" (cell ws r c))
           else _cells ws !! (r, c))
      ∧ same_layout ws ws1
      ∧ format_style_base_on_data_type cfg (df_columns df) num_rows (ws1, l) =
        (Ok tt, (ws1, l))
      ∧ ∃ s3, run_pipeline cfg lib df (ws, l) = (Ok tt, s3)
              ∧ cosmetic_steps cfg lib (ws1, l) = (Ok tt, s3).
Proof.
  intros Hrows Hcols num_rows num_cols. subst num_rows num_cols.
  rewrite Hrows. simpl length. split; [done|].
  assert (1 ≤ Z.of_nat (length (df_columns df))) as HC.
  { destruct (df_columns df); [done|]. simpl. lia. }
  destruct (header_body_cells 1 (Z.of_nat (length (df_columns df))) ws l)
    as (ws1 & Hrun & Hcells & Hlay); [lia|done|].
  assert (format_style_base_on_data_type cfg (df_columns df) 0 (ws1, l) = (Ok tt, (ws1, l)))
    as Htype.
  { unfold format_style_base_on_data_type.
    rewrite bool_decide_eq_false_2 by done. rewrite bool_decide_eq_false_2 by lia.
    by apply type_style_loop_zero. }
  exists ws1. repeat split; try done.
  - intros r c. rewrite Hcells.
    case_bool_decide; [done|]. rewrite bool_decide_eq_false_2 by lia. done.
  - apply Hlay.
  - apply Hlay.
  - apply Hlay.
  - apply (run_pipeline_after_structure cfg lib df (ws, l) (ws1, l) (ws1, l)).
    + by rewrite Hrows.
    + by rewrite Hrows.
Qed.

Lemma empty_table_structural_steps_witness :
  ∃ ws1,
    format_style_header_body 1 2 (empty_sheet, []) = (Ok tt, (ws1, []))
    ∧ style (cell ws1 1 1) = "header_style"
    ∧ style (cell ws1 1 2) = "header_style"
    ∧ _cells ws1 !! (2, 1) = None
    ∧ format_style_base_on_data_type constants ["Name"; "Age"] 0 (ws1, []) =
      (Ok tt, (ws1, [])).
Proof.
  destruct (empty_table_structural_steps constants refusing_renderer
              {| df_columns := ["Name"; "Age"]; df_rows := [] |} empty_sheet [])
    as (_ & ws1 & Hrun & Hcells & _ & Htype & _); [done|done|].
  exists ws1. split; [exact Hrun|]. unfold cell. rewrite !Hcells.
  repeat split; done.
Defined.

(** ** The reader's column validation (section 4.5) *)


Section reader_facts.
Context (repr : string → string) (fs : ExcelReader.FileSystem).

Import ExcelReader.

Lemma read_readable (self : ExcelReader) (T : DataFrame) (s : unit * log) :
  path_exists fs (file_path self) = true →
  read_excel fs (file_path self) = Ok T →
  read repr fs self s =
  bind (_validate_columns repr self T) (λ _, ret T) s.
Proof.
  intros Hex Hread. unfold read, _check_file_exists. rewrite Hex. simpl.
  unfold bind at 1. unfold ret at 1. unfold bind at 1.
  unfold _read_excel_file, try_except, lift. by rewrite Hread.
Qed.


End reader_facts.


(** The message of that run, in full. *)
Example read_missing_message :
  ExcelReader.read quoted sample_fs
    (ExcelReader.__init__ "phones.xlsx" (Some ["phone"; "name"; "code"])) (tt, []) =
  (Raise {| exn_cls := ValidationError;
            exn_message :=
              "Excel file missing required columns: ['code', 'phone']. " +:+
              "Available columns: ['name', 'status']";
            exn_field := "columns" |}, (tt, [])).
Proof. vm_compute. reflexivity. Qed.

(** ** Registering the styles (section 4.2) *)

Section registration.
Context (lib : Renderer).

(** Styles with fresh, pairwise distinct names are all registered. *)
Lemma register_each_fresh (sts : list NamedStyle) (rest : list (option NamedStyle))
    (wb : Workbook) (l : log) :
  NoDup (style_names wb ++ (name <$> sts)) →
  register_each lib ((Some <$> sts) ++ rest) (wb, l) =
  register_each lib rest (with_styles wb sts, l).
Proof.
  revert wb. induction sts as [|st sts IH]; intros wb Hnd.
  - simpl. unfold with_styles. rewrite app_nil_r. by destruct wb.
  - simpl. unfold bind at 1, try_except, Logger.on_target. simpl.
    unfold bind, get. simpl.
    rewrite bool_decide_eq_false_2.
    2:{ intros Hin. apply NoDup_app in Hnd as (_ & Hnd & _).
        apply (Hnd (name st)); [done|]. simpl. left. }
    simpl. rewrite IH.
    + unfold with_styles. simpl. by rewrite <- app_assoc.
    + unfold style_names. simpl. rewrite fmap_app. simpl.
      rewrite <- app_assoc. simpl. done.
Qed.

(** A name the workbook already has is refused: the failure is logged and
    raised again, and nothing after it is registered. *)
Lemma register_each_duplicate (st : NamedStyle) (rest : list (option NamedStyle))
    (wb : Workbook) (l : log) :
  name st ∈ style_names wb →
  register_each lib (Some st :: rest) (wb, l) =
  (Raise (Exn ValueError ("Style " +:+ name st +:+ " exists already") EmptyString),
   (wb, l ++ [(ERROR, "Error initializing styles: " +:+ repr_NamedStyle lib st +:+
                      " // " +:+ "Style " +:+ name st +:+ " exists already")])).
Proof.
  intros Hin. simpl. unfold bind at 1, try_except, Logger.on_target. simpl.
  unfold bind at 1, get. simpl. by rewrite bool_decide_eq_true_2.
Qed.
End registration.

(** No exception class of the code is called [RegistryError]. *)
Lemma no_RegistryError (c : exn_class) : class_name c ≠ "RegistryError".
Proof. by destruct c. Qed.

(** C8, as the code has it: when the styles built from the catalogs reach a
    name the workbook already holds (the built-in [Normal] or a style
    registered before it), the library's [ValueError] is logged and raised
    again by [_init_global_styles]; the writer's constructor ends with that
    exception, so no writer exists and no sheet is written (the workbook has
    none); the workbook holds [Normal] and the styles that came before the
    duplicate, and nothing that came after. *)
Theorem duplicate_style_aborts_registration
    (cfg : Config) (lib : Renderer) (wb0 : Workbook) (l l1 : log)
    (pre : list NamedStyle) (st : NamedStyle) (post : list (option NamedStyle)) :
  build_bulk_named_style cfg (ExcelWriter._create_workbook, l) =
    (Ok ((Some <$> pre) ++ Some st :: post), (ExcelWriter._create_workbook, l1)) →
  NoDup ("Normal" :: (name <$> pre)) →
  name st ∈ "Normal" :: (name <$> pre) →
  ExcelWriter.__init__ cfg lib (wb0, l) =
  (Raise (Exn ValueError ("Style " +:+ name st +:+ " exists already") EmptyString),
   ({| _named_styles := new_NamedStyle "Normal" :: pre; worksheets := [] |},
    l1 ++ [(ERROR, "Error initializing styles: " +:+ repr_NamedStyle lib st +:+
                   " // " +:+ "Style " +:+ name st +:+ " exists already")])).
Proof.
  intros Hbuild Hnd Hin.
  unfold ExcelWriter.__init__, __init__, _init_global_styles.
  unfold bind at 1, modify. simpl.
  unfold bind at 1, try_except. rewrite Hbuild.
  rewrite register_each_fresh by done.
  rewrite register_each_duplicate; [done|].
  unfold style_names, with_styles. simpl. done.
Qed.

Lemma duplicate_style_aborts_registration_witness :
  ExcelWriter.__init__ duplicated_catalogs refusing_renderer (new_Workbook, []) =
  (Raise (Exn ValueError "Style header_style exists already" EmptyString),
   ({| _named_styles :=
         [new_NamedStyle "Normal";
          {| name := "header_style";
             font := Some {| font_name := PStr "Calibri"; font_size := PInt 11;
                             font_bold := PBool false; font_italic := PBool false;
                             font_vertAlign := PNone; font_underline := PStr "none";
                             font_strike := PBool false; font_color := PStr "000000" |};
             fill := None; alignment := None; number_format := None |}];
       worksheets := [] |},
    [(ERROR, "Error initializing styles: header_style // Style header_style exists already")])).
Proof.
  apply (duplicate_style_aborts_registration duplicated_catalogs refusing_renderer
           new_Workbook [] []
           [{| name := "header_style";
               font := Some {| font_name := PStr "Calibri"; font_size := PInt 11;
                               font_bold := PBool false; font_italic := PBool false;
                               font_vertAlign := PNone; font_underline := PStr "none";
                               font_strike := PBool false; font_color := PStr "000000" |};
               fill := None; alignment := None; number_format := None |}]
           {| name := "header_style"; font := None; fill := None; alignment := None;
              number_format := Some (PStr "General") |}
           []).
  - reflexivity.
  - by_evaluation.
  - by_evaluation.
Defined.

(** C8 as stated fails: on two catalogs that share a key the constructor
    raises, and what it raises is the library's [ValueError]; it is not a
    [RegistryError], a class the code does not have. *)
Lemma duplicate_style_not_RegistryError :
  ∃ e s', ExcelWriter.__init__ duplicated_catalogs refusing_renderer (new_Workbook, []) =
            (Raise e, s')
          ∧ class_name (exn_cls e) = "ValueError"
          ∧ class_name (exn_cls e) ≠ "RegistryError"
          ∧ isinstance e BaseAppError = false.
Proof. eexists _, _. split; [reflexivity|]. repeat split. done. Qed.

(** ** Catalog entries without content (section 4.2) *)

Section falsy_entries.
Context {T : Type} (cfg : Config).

(** Every key leaves one element in the list, a style or [None]. *)
Lemma build_each_length (style_type : string) (keys : list string)
    (res_lst lst : list (option NamedStyle)) (s s' : T * log) :
  build_each cfg style_type keys res_lst s = (Ok lst, s') →
  length lst = (length res_lst + length keys)%nat.
Proof.
  revert res_lst s. induction keys as [|k keys IH]; intros res_lst s; simpl.
  - intros [= <- _]. lia.
  - unfold bind at 1.
    destruct (_build_named_style cfg k style_type s) as [[o|e] s1]; [|done].
    intros H. apply IH in H. rewrite length_app in H. simpl in H. lia.
Qed.

Lemma build_bulk_named_style_length (lst : list (option NamedStyle)) (s s' : T * log) :
  build_bulk_named_style cfg s = (Ok lst, s') →
  length lst =
  (length (visual_style_name cfg) + length (data_type_style_name cfg))%nat.
Proof.
  unfold build_bulk_named_style, bind.
  destruct (build_each cfg "VISUAL_STYLE_NAME_CONFIG" _ [] s) as [[r|e] s1] eqn:E1; [|done].
  intros E2. apply build_each_length in E1, E2.
  unfold dict_keys in *. rewrite !length_fmap in *. simpl in E1. lia.
Qed.

(** A falsy entry of the visual catalog: a warning, and [None]. *)
Lemma _build_named_style_falsy (style_name : string) (e : entry) (s : T * log) :
  dict_get style_name (visual_style_name cfg) = Some e →
  entry_truthy e = false →
  _build_named_style cfg style_name "VISUAL_STYLE_NAME_CONFIG" s =
  (Ok None, (s.1, s.2 ++ [(WARNING, "Config style '" +:+ style_name +:+
                                    "' not found in VISUAL_STYLE_NAME_CONFIG")])).
Proof.
  intros Hget Hf. unfold _build_named_style.
  rewrite bool_decide_eq_true_2 by done. by rewrite Hget, Hf.
Qed.
End falsy_entries.

(** C7, at a catalog whose [header_style] entry is an empty [dict]:
    [build_bulk_named_style] logs the warning and goes on to the remaining
    keys, but the key is not left out of what it returns: the list holds
    [None] at the key's place.  [_init_global_styles] hands that [None] to
    the workbook, which refuses it, so the constructor ends with a
    [TypeError] and no style of the catalogs is registered. *)
Theorem falsy_entry_kept_as_None :
  build_bulk_named_style falsy_entry_catalogs (tt, []) =
    (Ok [None;
         Some {| name := "body_style"; font := None; fill := None;
                 alignment := Some {| horizontal := PStr "left"; vertical := PStr "top";
                                      wrap_text := PBool false |};
                 number_format := None |};
         Some {| name := "default_style"; font := None; fill := None; alignment := None;
                 number_format := Some (PStr "General") |}],
     (tt, [(WARNING, "Config style 'header_style' not found in VISUAL_STYLE_NAME_CONFIG")]))
  ∧ ∀ lib wb,
      ExcelWriter.__init__ falsy_entry_catalogs lib (wb, []) =
      (Raise (Exn TypeError "Only NamedStyle instances can be added" EmptyString),
       ({| _named_styles := [new_NamedStyle "Normal"]; worksheets := [] |},
        [(WARNING, "Config style 'header_style' not found in VISUAL_STYLE_NAME_CONFIG");
         (ERROR, "Error initializing styles: None // Only NamedStyle instances can be added")])).
Proof. split; [|intros lib wb]; vm_compute; reflexivity. Qed.

(** ** Column widths (section 4.4, step 4) *)

Lemma range_cons (a b : Z) : a < b → range a b = a :: range (a + 1) b.
Proof.
  intros H. unfold range.
  replace (Z.to_nat (b - a)) with (S (Z.to_nat (b - (a + 1)))) by lia.
  simpl. f_equal; [lia|].
  rewrite <- fmap_S_seq, <- list_fmap_compose.
  apply list_fmap_ext. intros _ i _. simpl. lia.
Qed.

Lemma foldl_max_spec (x : Z) (l : list Z) :
  foldl Z.max x l ∈ x :: l ∧ ∀ y, y ∈ x :: l → y ≤ foldl Z.max x l.
Proof.
  revert x. induction l as [|z l IH]; intros x; simpl.
  - split; [left|]. intros y Hy. apply list_elem_of_singleton in Hy. lia.
  - destruct (IH (Z.max x z)) as [Hin Hle]. split.
    + apply elem_of_cons in Hin as [Hin|Hin]; [|by do 2 right].
      rewrite Hin. destruct (Z.max_spec x z) as [[_ ->]|[_ ->]]; [right; left|left].
    + intros y Hy. apply elem_of_cons in Hy as [->|Hy].
      * specialize (Hle (Z.max x z)). etrans; [|apply Hle; left]. lia.
      * apply elem_of_cons in Hy as [->|Hy].
        -- specialize (Hle (Z.max x z)). etrans; [|apply Hle; left]. lia.
        -- apply Hle. by right.
Qed.

(** On a non-empty list [max(l, default=d)] is the greatest element of [l];
    [d] plays no part. *)
Lemma py_max_nonempty (l : list Z) (d : Z) :
  l ≠ [] → py_max l d ∈ l ∧ ∀ y, y ∈ l → y ≤ py_max l d.
Proof. destruct l as [|x l]; [done|]. intros _. apply foldl_max_spec. Qed.

Lemma max_row_pos (ws : Worksheet) : 1 ≤ max_row ws.
Proof.
  unfold max_row. induction (_ <$> map_to_list (_cells ws)) as [|x l IH]; simpl; lia.
Qed.

(** A column without cells would be measured as 5, and then fail on
    [col[0]]: no width is set for it. *)
Lemma width_step_no_cells (max_width : Z) (s : Worksheet * log) :
  width_step (PInt max_width) [] s =
  (Raise (Exn IndexError "tuple index out of range" EmptyString), s).
Proof. done. Qed.

(** Every column that [ws.columns] yields has a cell. *)
Lemma columns_have_cells (ws : Worksheet) (col : list located) :
  col ∈ columns ws → col ≠ [].
Proof.
  unfold columns. case_bool_decide as Hempty; [by intros Hin%elem_of_nil|].
  intros (c & -> & _)%list_elem_of_fmap.
  rewrite range_cons by (pose proof (max_row_pos ws); lia). done.
Qed.

Lemma max_len_spec (ws : Worksheet) (c : Z) :
  (∃ r, 1 ≤ r ≤ max_row ws ∧ max_len ws c = measured ws r c)
  ∧ ∀ r, 1 ≤ r ≤ max_row ws → measured ws r c ≤ max_len ws c.
Proof.
  pose proof (max_row_pos ws) as Hpos. unfold max_len.
  destruct (py_max_nonempty ((λ r, measured ws r c) <$> range 1 (max_row ws + 1)) 5)
    as [Hin Hle].
  { rewrite range_cons by lia. done. }
  split.
  - apply list_elem_of_fmap in Hin as (r & Hr & Hin). apply elem_of_range in Hin.
    exists r. split; [lia|done].
  - intros r Hr. apply Hle, list_elem_of_fmap. exists r. split; [done|].
    apply elem_of_range. lia.
Qed.

Lemma width_loop (W : Z) (ws0 : Worksheet) (cs : list Z) (ws : Worksheet) (l : log) :
  for_each ((λ c, (λ r, (r, c, cell ws0 r c)) <$> range 1 (max_row ws0 + 1)) <$> cs)
    (width_step (PInt W)) (ws, l) =
  (Ok tt, (foldl (λ w c, set_width c (Z.min (max_len ws0 c + 8) W) w) ws cs, l)).
Proof.
  pose proof (max_row_pos ws0) as Hpos.
  revert ws. induction cs as [|c cs IH]; intros ws; simpl; [done|].
  erewrite bind_ok; [apply IH|].
  unfold width_step, bind, lift. simpl.
  rewrite <- list_fmap_compose. unfold max_len.
  rewrite (range_cons 1) by lia. simpl. done.
Qed.

Lemma widths_lookup (w : Z → Z) (cs : list Z) (ws : Worksheet) (c : Z) :
  column_dimensions (foldl (λ ws c, set_width c (w c) ws) ws cs) !! c =
  if bool_decide (c ∈ cs) then Some (w c) else column_dimensions ws !! c.
Proof.
  revert ws. induction cs as [|c0 cs IH]; intros ws; simpl; [done|].
  rewrite IH. simpl. destruct (decide (c = c0)) as [->|Hne].
  - rewrite lookup_insert_eq.
    rewrite (bool_decide_eq_true_2 (c0 ∈ c0 :: cs)) by left. by case_bool_decide.
  - rewrite lookup_insert_ne by done.
    rewrite (bool_decide_ext (c ∈ c0 :: cs) (c ∈ cs)); [done|].
    rewrite elem_of_cons. tauto.
Qed.

Lemma widths_cells (w : Z → Z) (cs : list Z) (ws : Worksheet) :
  _cells (foldl (λ ws c, set_width c (w c) ws) ws cs) = _cells ws.
Proof. revert ws. induction cs as [|c0 cs IH]; intros ws; simpl; [done|]. by rewrite IH. Qed.

(** What the width step does when it is enabled with an integer bound [W]:
    every column of 1..max_column gets the width [min(max_len + 8, W)], where
    [max_len] is the greatest measured length of its cells. *)
Lemma auto_adjust_cols_widths (cfg : Config) (ws : Worksheet) (l : log) (on : pyval) (W : Z) :
  Entry.get (Entry.catalog_get (visual_style_name cfg) "auto_adjust_style")
    "auto_adjust_width" (PBool false) = Ok on →
  truthy on = true →
  Entry.get (Entry.catalog_get (visual_style_name cfg) "auto_adjust_style")
    "max_column_width" (PInt 60) = Ok (PInt W) →
  _cells ws ≠ ∅ →
  ∃ ws', auto_adjust_cols cfg (ws, l) = (Ok tt, (ws', l))
    ∧ _cells ws' = _cells ws
    ∧ ∀ c, column_dimensions ws' !! c =
        if bool_decide (1 ≤ c ≤ max_column ws) then Some (Z.min (max_len ws c + 8) W)
        else column_dimensions ws !! c.
Proof.
  intros Hon Ht HW Hcells. eexists. split; [|split].
  - unfold auto_adjust_cols, try_except, bind at 1, lift. rewrite Hon, Ht. simpl.
    unfold bind at 1. rewrite HW. unfold bind at 1, get. simpl.
    unfold columns. rewrite bool_decide_eq_false_2 by done.
    change (for_each ?cols _ ?s) with (for_each cols (width_step (PInt W)) s).
    rewrite width_loop. reflexivity.
  - apply widths_cells.
  - intros c. rewrite (widths_lookup (λ c, Z.min (max_len ws c + 8) W)).
    rewrite (bool_decide_ext (c ∈ range 1 (max_column ws + 1)) (1 ≤ c ≤ max_column ws));
      [done|].
    rewrite elem_of_range. lia.
Qed.

(** A column whose cells all hold a falsy value (no value, the empty string,
    0, [False]) is measured as 0 and gets the width [min(8, W)]. *)
Lemma auto_adjust_cols_empty_column (cfg : Config) (ws : Worksheet) (l : log)
    (on : pyval) (W c : Z) :
  Entry.get (Entry.catalog_get (visual_style_name cfg) "auto_adjust_style")
    "auto_adjust_width" (PBool false) = Ok on →
  truthy on = true →
  Entry.get (Entry.catalog_get (visual_style_name cfg) "auto_adjust_style")
    "max_column_width" (PInt 60) = Ok (PInt W) →
  _cells ws ≠ ∅ →
  1 ≤ c ≤ max_column ws →
  (∀ r, 1 ≤ r ≤ max_row ws → truthy (value (cell ws r c)) = false) →
  ∃ ws', auto_adjust_cols cfg (ws, l) = (Ok tt, (ws', l))
    ∧ column_dimensions ws' !! c = Some (Z.min 8 W).
Proof.
  intros Hon Ht HW Hcells Hc Hempty.
  destruct (auto_adjust_cols_widths cfg ws l on W) as (ws' & Hrun & _ & Hw); try done.
  exists ws'. split; [done|]. rewrite Hw, bool_decide_eq_true_2 by done.
  destruct (max_len_spec ws c) as [(r & Hr & ->) _].
  unfold measured, py_or. by rewrite Hempty.
Qed.

(** C6, at a sheet whose column B is entirely empty, with the shipped
    configuration (auto-adjust on, maximum width 60): [auto_adjust_cols]
    gives columns A and C the width 1 + 8 = 9, and column B the width
    0 + 8 = 8, not min(5 + 8, 60) = 13.  The minimum content length 5 is the
    [default] of [max], which applies to a column without cells only, and
    [ws.columns] yields no such column. *)
Theorem auto_adjust_cols_empty_column_width :
  ∃ ws', auto_adjust_cols constants (gap_sheet, []) = (Ok tt, (ws', []))
    ∧ column_dimensions ws' !! 1 = Some 9
    ∧ column_dimensions ws' !! 2 = Some 8
    ∧ column_dimensions ws' !! 3 = Some 9
    ∧ Z.min (5 + 8) 60 = 13.
Proof.
  destruct (auto_adjust_cols_widths constants gap_sheet [] (PBool true) 60)
    as (ws' & Hrun & _ & Hw); try done.
  exists ws'. split; [exact Hrun|]. rewrite !Hw. by vm_compute.
Qed.

(** The same measure on a column of [False] under the header [ok]: the
    longest text is [False], of length 5, and the width is 2 + 8. *)
Example auto_adjust_cols_boolean_column :
  ∃ ws', auto_adjust_cols constants
           (set_cell_value 3 1 (PBool false)
              (set_cell_value 2 1 (PBool false)
                 (set_cell_value 1 1 (PStr "ok") empty_sheet)), []) = (Ok tt, (ws', []))
    ∧ column_dimensions ws' !! 1 = Some 10
    ∧ len (str (PBool false)) = 5.
Proof.
  destruct (auto_adjust_cols_widths constants
              (set_cell_value 3 1 (PBool false)
                 (set_cell_value 2 1 (PBool false)
                    (set_cell_value 1 1 (PStr "ok") empty_sheet)))
              [] (PBool true) 60)
    as (ws' & Hrun & _ & Hw); try done.
  exists ws'. split; [exact Hrun|]. rewrite !Hw. by vm_compute.
Qed.

(** * Further properties of the code *)

(** ** [_apply_styles] *)





(** ** The two structural steps together *)

Lemma first_occurrence_at_bounds (cols : list string) (c : Z) (col : string) :
  first_occurrence_at cols c = Some col →
  1 ≤ c ≤ Z.of_nat (length cols) ∧ col ∈ cols.
Proof.
  intros (i & Hi & ->)%first_occurrence_at_Some.
  apply list_index_lookup in Hi. split.
  - apply lookup_lt_Some in Hi. lia.
  - by eapply list_elem_of_lookup_2.
Qed.

Lemma structural_steps_cells (cfg : Config) (cols : list string) (n : Z)
    (ws : Worksheet) (l : log) :
  cols ≠ [] → 0 ≤ n →
  ∃ ws2, structural_steps cfg cols n (ws, l) = (Ok tt, (ws2, l))
    ∧ (∀ r c, _cells ws2 !! (r, c) =
         if bool_decide (r = 1 ∧ 1 ≤ c ≤ Z.of_nat (length cols)) then
           Some (with_style "header_style" (cell ws r c))
         else if bool_decide (2 ≤ r ≤ n + 1 ∧ 1 ≤ c ≤ Z.of_nat (length cols)) then
           Some (with_style (data_style_at cfg cols c) (cell ws r c))
         else _cells ws !! (r, c))
    ∧ same_layout ws ws2.
Proof.
  intros Hne Hn.
  assert (1 ≤ Z.of_nat (length cols)) as HC.
  { destruct cols; [done|]. simpl. lia. }
  destruct (header_body_cells (n + 1) (Z.of_nat (length cols)) ws l)
    as (ws1 & Hrun1 & Hcells1 & Hlay1); [lia|done|].
  destruct (type_style_loop cfg cols cols n ws1 l) as (ws2 & Hrun2 & Hcells2 & Hlay2);
    [done|].
  exists ws2. split; [|split].
  - unfold structural_steps. erewrite bind_ok by exact Hrun1.
    unfold format_style_base_on_data_type.
    rewrite bool_decide_eq_false_2 by done. rewrite bool_decide_eq_false_2 by lia.
    exact Hrun2.
  - intros r c. rewrite Hcells2. unfold cell at 1. rewrite !Hcells1.
    unfold data_style_at.
    destruct (first_occurrence_at cols c) as [col|] eqn:Hc.
    + apply first_occurrence_at_bounds in Hc as [Hc Hin].
      rewrite (bool_decide_ext (2 ≤ r ≤ n + 1 ∧ col ∈ cols) (2 ≤ r ≤ n + 1)) by tauto.
      repeat case_bool_decide; try done; lia.
    + repeat case_bool_decide; try done; lia.
  - unfold same_layout in *. destruct Hlay2 as (-> & -> & ->). exact Hlay1.
Qed.

(** After the two structural steps of [run_pipeline] the header row carries
    [header_style]; a data cell carries the style resolved for its column's
    name, which replaces the [body_style] the first step gave it, so with
    pairwise distinct names no data cell of the table is left with the body
    step's style; only the column of a later duplicate of a name keeps
    [body_style].  Values are kept and no cell outside the table is made. *)
Theorem type_style_replaces_body_style (cfg : Config) (cols : list string) (n : Z)
    (ws : Worksheet) (l : log) :
  cols ≠ [] → 0 ≤ n →
  ∃ ws2, structural_steps cfg cols n (ws, l) = (Ok tt, (ws2, l))
    ∧ (∀ c, 1 ≤ c ≤ Z.of_nat (length cols) → style (cell ws2 1 c) = "header_style")
    ∧ (∀ r j col, 2 ≤ r ≤ n + 1 → cols !! j = Some col → list_index col cols = Some j →
         style (cell ws2 r (Z.of_nat j + 1)) = cfg_style_name cfg col)
    ∧ (∀ r j col, 2 ≤ r ≤ n + 1 → cols !! j = Some col → list_index col cols ≠ Some j →
         style (cell ws2 r (Z.of_nat j + 1)) = "body_style")
    ∧ (NoDup cols → ∀ r j col, 2 ≤ r ≤ n + 1 → cols !! j = Some col →
         style (cell ws2 r (Z.of_nat j + 1)) = cfg_style_name cfg col)
    ∧ (∀ r c, value (cell ws2 r c) = value (cell ws r c))
    ∧ (∀ r c, ¬ (1 ≤ r ≤ n + 1 ∧ 1 ≤ c ≤ Z.of_nat (length cols)) →
         _cells ws2 !! (r, c) = _cells ws !! (r, c)).
Proof.
  intros Hne Hn.
  destruct (structural_steps_cells cfg cols n ws l) as (ws2 & Hrun & Hcells & _);
    [done|done|].
  assert (∀ r j col, 2 ≤ r ≤ n + 1 → cols !! j = Some col →
            style (cell ws2 r (Z.of_nat j + 1)) =
            data_style_at cfg cols (Z.of_nat j + 1)) as Hdata.
  { intros r j col Hr Hj. pose proof (lookup_lt_Some _ _ _ Hj) as Hlt.
    unfold cell. rewrite Hcells.
    rewrite bool_decide_eq_false_2 by lia. by rewrite bool_decide_eq_true_2 by lia. }
  exists ws2. split; [exact Hrun|]. split; [|split; [|split; [|split; [|split]]]].
  - intros c Hc. unfold cell. rewrite Hcells.
    by rewrite bool_decide_eq_true_2 by lia.
  - intros r j col Hr Hj Hi. rewrite (Hdata r j col Hr Hj). unfold data_style_at.
    by rewrite (first_occurrence_at_index cols col j Hi).
  - intros r j col Hr Hj Hi. rewrite (Hdata r j col Hr Hj). unfold data_style_at.
    destruct (list_index_elem_of col cols) as [i Hi']; [by eapply list_elem_of_lookup_2|].
    rewrite (first_occurrence_at_later cols i j col Hj Hi'); [done|]. congruence.
  - intros Hnd r j col Hr Hj. rewrite (Hdata r j col Hr Hj). unfold data_style_at.
    by rewrite (first_occurrence_at_index cols col j (list_index_NoDup _ _ _ Hnd Hj)).
  - intros r c. unfold cell at 1. rewrite Hcells. by repeat case_bool_decide.
  - intros r c Hout. rewrite Hcells. rewrite !bool_decide_eq_false_2 by lia. done.
Qed.

Lemma type_style_replaces_body_style_witness :
  ∃ ws2, structural_steps constants ["Product"; "number_decimal"; "Product"] 1
           (empty_sheet, []) = (Ok tt, (ws2, []))
    ∧ style (cell ws2 1 2) = "header_style"
    ∧ style (cell ws2 2 1) = "default_style"
    ∧ style (cell ws2 2 2) = "float_style"
    ∧ style (cell ws2 2 3) = "body_style".
Proof.
  destruct (type_style_replaces_body_style constants
              ["Product"; "number_decimal"; "Product"] 1 empty_sheet [])
    as (ws2 & Hrun & Hhead & Hfirst & Hlater & _); [done|lia|].
  exists ws2. split; [exact Hrun|]. split; [|split; [|split]].
  - apply (Hhead 2). simpl. lia.
  - apply (Hfirst 2 0%nat "Product"); [lia|done|done].
  - apply (Hfirst 2 1%nat "number_decimal"); [lia|done|done].
  - apply (Hlater 2 2%nat "Product"); [lia|done|done].
Defined.

(** ** Formatting an already formatted sheet *)

Lemma worksheet_eq (ws ws' : Worksheet) :
  _cells ws' = _cells ws → same_layout ws ws' → ws' = ws.
Proof.
  destruct ws, ws'. unfold same_layout. simpl. intros -> (-> & -> & ->). done.
Qed.

(** Running the two structural steps again on the sheet they produced
    returns the very same sheet: restyling is idempotent. *)
Theorem structural_steps_idempotent (cfg : Config) (cols : list string) (n : Z)
    (s s1 : Worksheet * log) :
  cols ≠ [] → 0 ≤ n →
  structural_steps cfg cols n s = (Ok tt, s1) →
  structural_steps cfg cols n s1 = (Ok tt, s1).
Proof.
  intros Hne Hn Hrun. destruct s as [ws l].
  destruct (structural_steps_cells cfg cols n ws l) as (ws1 & Hrun1 & Hcells1 & _);
    [done|done|].
  rewrite Hrun1 in Hrun. injection Hrun as <-.
  destruct (structural_steps_cells cfg cols n ws1 l) as (ws2 & Hrun2 & Hcells2 & Hlay2);
    [done|done|].
  rewrite Hrun2. do 2 f_equal. apply worksheet_eq; [|done].
  apply map_eq. intros [r c]. rewrite Hcells2. unfold cell at 1 2. rewrite !Hcells1.
  by repeat case_bool_decide.
Qed.

Lemma structural_steps_idempotent_witness :
  ∃ s1, structural_steps constants ["date"; "Name"] 2 (empty_sheet, []) = (Ok tt, s1)
        ∧ structural_steps constants ["date"; "Name"] 2 s1 = (Ok tt, s1).
Proof.
  destruct (structural_steps_cells constants ["date"; "Name"] 2 empty_sheet [])
    as (ws1 & Hrun & _); [done|lia|].
  exists (ws1, []). split; [exact Hrun|].
  apply (structural_steps_idempotent constants ["date"; "Name"] 2 (empty_sheet, []));
    [done|lia|exact Hrun].
Defined.

(** ** [run_pipeline] as a whole *)

Lemma run_pipeline_structural (cfg : Config) (lib : Renderer) (df : DataFrame)
    (s s2 : Worksheet * log) :
  structural_steps cfg (df_columns df) (Z.of_nat (length (df_rows df))) s = (Ok tt, s2) →
  ∃ s3, run_pipeline cfg lib df s = (Ok tt, s3) ∧ cosmetic_steps cfg lib s2 = (Ok tt, s3).
Proof.
  unfold structural_steps, bind.
  destruct (format_style_header_body _ _ s) as [[[]|e] s1] eqn:E1; [|done].
  intros E2. by eapply run_pipeline_after_structure.
Qed.



(** ** Switches that are off *)

(** A cosmetic step whose switch reads as false does nothing: the sheet
    and the log are left as they are and the library is not called.  The
    switch is off when its key holds a falsy value, when the key is missing
    from the style's entry, and when the style is missing from the catalog
    altogether. *)
Theorem switched_off_steps_do_nothing (cfg : Config) (lib : Renderer) (s : Worksheet * log) :
  let switch (style key : string) :=
    Entry.get (Entry.catalog_get (visual_style_name cfg) style) key (PBool false) in
  (∀ on, switch "filter_style" "mode_on" = Ok on → truthy on = false →
         set_filter_mode cfg lib s = (Ok tt, s))
  ∧ (∀ on, switch "auto_adjust_style" "auto_adjust_width" = Ok on → truthy on = false →
           auto_adjust_cols cfg s = (Ok tt, s))
  ∧ (∀ on, switch "freeze_panes_style" "mode_on" = Ok on → truthy on = false →
           set_freeze_panes_style cfg lib s = (Ok tt, s))
  ∧ (∀ style key, dict_get style (visual_style_name cfg) = None →
                  switch style key = Ok (PBool false))
  ∧ (∀ style key d, dict_get style (visual_style_name cfg) = Some (EDict d) →
                    dict_get key d = None → switch style key = Ok (PBool false)).
Proof.
  intros switch. subst switch. split; [|split; [|split; [|split]]].
  - intros on Hget Hon. unfold set_filter_mode, try_except, bind, lift.
    by rewrite Hget, Hon.
  - intros on Hget Hon. unfold auto_adjust_cols, try_except, bind, lift.
    by rewrite Hget, Hon.
  - intros on Hget Hon. unfold set_freeze_panes_style, try_except, bind, lift.
    by rewrite Hget, Hon.
  - intros style key Hnone. unfold Entry.catalog_get. by rewrite Hnone.
  - intros style key d Hd Hkey. unfold Entry.catalog_get. rewrite Hd. simpl.
    by rewrite Hkey.
Qed.

Lemma switched_off_steps_do_nothing_witness :
  set_filter_mode quiet_catalogs refusing_renderer (gap_sheet, []) = (Ok tt, (gap_sheet, []))
  ∧ auto_adjust_cols quiet_catalogs (gap_sheet, []) = (Ok tt, (gap_sheet, []))
  ∧ set_freeze_panes_style quiet_catalogs refusing_renderer (gap_sheet, []) =
    (Ok tt, (gap_sheet, [])).
Proof.
  destruct (switched_off_steps_do_nothing quiet_catalogs refusing_renderer (gap_sheet, []))
    as (H1 & H2 & H3 & _).
  split; [|split].
  - by apply (H1 (PBool false)).
  - by apply (H2 (PBool false)).
  - by apply (H3 (PBool false)).
Defined.

(** ** Column widths *)






(** ** The builder leaves its surroundings alone *)

Section log_only_facts.
Context {T : Type}.

Lemma log_only_ret {A} (a : A) : log_only (T := T) (ret a).
Proof. exists (Ok a), []. intros [t l]. simpl. unfold ret. by rewrite app_nil_r. Qed.

Lemma log_only_lift {A} (r : result A) : log_only (T := T) (lift r).
Proof. exists r, []. intros [t l]. simpl. unfold lift. by rewrite app_nil_r. Qed.

Lemma log_only_warning (msg : string) : log_only (T := T) (Logger.warning msg).
Proof. by exists (Ok tt), [(WARNING, msg)]. Qed.

Lemma log_only_bind {A B} (m : M (T * log) A) (k : A → M (T * log) B) :
  log_only m → (∀ a, log_only (k a)) → log_only (bind m k).
Proof.
  intros (r & w & Hm) Hk. destruct r as [a|e].
  - destruct (Hk a) as (r2 & w2 & Hk2). exists r2, (w ++ w2). intros s.
    unfold bind. rewrite Hm, Hk2. simpl. by rewrite app_assoc.
  - exists (Raise e), w. intros s. unfold bind. by rewrite Hm.
Qed.
End log_only_facts.

(** Unfolds a computation of the builder into its steps. *)
Ltac log_only_steps :=
  repeat first
    [ apply log_only_ret
    | apply log_only_lift
    | apply log_only_warning
    | apply log_only_bind; [|intros ?]
    | match goal with
      | |- log_only (if ?b then _ else _) => destruct b
      | |- log_only (match ?x with _ => _ end) => destruct x
      end ].

Lemma _build_named_style_log_only {T} (cfg : Config) (style_name style_type : string) :
  log_only (T := T) (_build_named_style cfg style_name style_type).
Proof. unfold _build_named_style, eget. log_only_steps. Qed.

Lemma build_each_log_only {T} (cfg : Config) (style_type : string) (keys : list string)
    (res_lst : list (option NamedStyle)) :
  log_only (T := T) (build_each cfg style_type keys res_lst).
Proof.
  revert res_lst. induction keys as [|k keys IH]; intros res_lst; simpl.
  - apply log_only_ret.
  - apply log_only_bind; [apply _build_named_style_log_only|]. intros o. apply IH.
Qed.

Lemma build_bulk_named_style_log_only {T} (cfg : Config) :
  log_only (T := T) (build_bulk_named_style cfg).
Proof.
  unfold build_bulk_named_style.
  apply log_only_bind; [apply build_each_log_only|]. intros r. apply build_each_log_only.
Qed.

(** ** What a successful registration leaves in the workbook *)

Lemma register_each_ok (lib : Renderer) (lst : list (option NamedStyle))
    (wb wb' : Workbook) (l l' : log) :
  register_each lib lst (wb, l) = (Ok tt, (wb', l')) →
  ∃ sts, lst = Some <$> sts ∧ wb' = with_styles wb sts ∧ l' = l
         ∧ NoDup (name <$> sts)
         ∧ ∀ n, n ∈ name <$> sts → n ∉ style_names wb.
Proof.
  revert wb. induction lst as [|item rest IH]; intros wb; simpl.
  - intros [= <- <-]. exists []. unfold with_styles. rewrite app_nil_r.
    destruct wb. repeat split; try done. { constructor. } by intros n H%elem_of_nil.
  - unfold bind at 1, try_except, Logger.on_target. simpl.
    destruct item as [st|]; simpl; [|done].
    unfold bind at 1, get. simpl. case_bool_decide as Hin; simpl; [done|].
    intros H. apply IH in H as (sts & -> & -> & -> & Hnd & Hfresh).
    exists (st :: sts). split; [done|]. split.
    { unfold with_styles. simpl. by rewrite <- app_assoc. }
    split; [done|].
    assert (∀ n, n ∈ name <$> sts → n ≠ name st ∧ n ∉ style_names wb) as Hsts.
    { intros n Hn. specialize (Hfresh n Hn). unfold style_names in Hfresh. simpl in Hfresh.
      rewrite fmap_app, elem_of_app in Hfresh. simpl in Hfresh.
      split; [|tauto]. intros ->. apply Hfresh. right. left. }
    split.
    + simpl. constructor; [|done]. intros Hn. by destruct (Hsts _ Hn).
    + intros n Hn. simpl in Hn. apply elem_of_cons in Hn as [->|Hn]; [done|].
      by destruct (Hsts _ Hn).
Qed.

Lemma _init_global_styles_ok (cfg : Config) (lib : Renderer) (wb wb' : Workbook) (l l' : log) :
  _init_global_styles cfg lib (wb, l) = (Ok tt, (wb', l')) →
  ∃ sts, build_bulk_named_style cfg (wb, l) = (Ok (Some <$> sts), (wb, l'))
         ∧ wb' = with_styles wb sts
         ∧ NoDup (name <$> sts)
         ∧ ∀ n, n ∈ name <$> sts → n ∉ style_names wb.
Proof.
  unfold _init_global_styles, bind, try_except.
  destruct (build_bulk_named_style_log_only (T := Workbook) cfg) as (r & w & Hb).
  rewrite (Hb (wb, l)). simpl. destruct r as [lst|e]; [|done].
  intros H. apply register_each_ok in H as (sts & -> & -> & -> & Hnd & Hfresh).
  by exists sts.
Qed.

(** ** The styles are named after the keys *)

Section returns_facts.
Context {S : Type}.

Lemma returns_ret {A} (P : A → Prop) (a : A) : P a → returns (S := S) P (ret a).
Proof. intros H s a' s' [= <- _]. done. Qed.

Lemma returns_bind {A B} (P : B → Prop) (m : M S A) (k : A → M S B) :
  (∀ a, returns P (k a)) → returns P (bind m k).
Proof.
  intros Hk s b s'. unfold bind. destruct (m s) as [[a|e] s1]; [apply Hk|done].
Qed.
End returns_facts.

Lemma _build_named_style_name {T} (cfg : Config) (style_name style_type : string) :
  returns (S := T * log) (λ o, ∀ st, o = Some st → name st = style_name)
    (_build_named_style cfg style_name style_type).
Proof.
  unfold _build_named_style.
  repeat first
    [ apply returns_bind; intros ?
    | apply returns_ret; by intros st [= <-]
    | match goal with
      | |- returns _ (if ?b then _ else _) => destruct b
      | |- returns _ (match ?x with _ => _ end) => destruct x
      end ].
Qed.

Lemma build_each_names {T} (cfg : Config) (style_type : string) (keys : list string)
    (res_lst lst : list (option NamedStyle)) (s s' : T * log) :
  build_each cfg style_type keys res_lst s = (Ok lst, s') →
  ∃ new, lst = res_lst ++ new
         ∧ Forall2 (λ k o, ∀ st, o = Some st → name st = k) keys new.
Proof.
  revert res_lst s. induction keys as [|k keys IH]; intros res_lst s; simpl.
  - intros [= <- _]. exists []. by rewrite app_nil_r.
  - unfold bind at 1.
    destruct (_build_named_style cfg k style_type s) as [[o|e] s1] eqn:E; [|done].
    intros H. apply IH in H as (new & -> & Hall).
    exists (o :: new). split; [by rewrite <- app_assoc|].
    constructor; [|done]. by eapply (_build_named_style_name cfg k style_type).
Qed.

Lemma names_of_built (keys : list string) (sts : list NamedStyle) :
  Forall2 (λ k o, ∀ st, o = Some st → name st = k) keys (Some <$> sts) →
  name <$> sts = keys.
Proof.
  revert keys. induction sts as [|st sts IH]; intros keys H; inversion H; subst; simpl.
  - done.
  - f_equal; [by auto|]. by apply IH.
Qed.

Lemma build_bulk_named_style_names {T} (cfg : Config) (sts : list NamedStyle)
    (s s' : T * log) :
  build_bulk_named_style cfg s = (Ok (Some <$> sts), s') →
  name <$> sts =
  dict_keys (visual_style_name cfg) ++ dict_keys (data_type_style_name cfg).
Proof.
  unfold build_bulk_named_style, bind.
  destruct (build_each cfg "VISUAL_STYLE_NAME_CONFIG" _ [] s) as [[r|e] s1] eqn:E1; [|done].
  intros E2.
  apply build_each_names in E1 as (new1 & -> & H1).
  apply build_each_names in E2 as (new2 & E & H2). simpl in E.
  apply fmap_app_inv in E as (sts1 & sts2 & -> & -> & ->).
  rewrite fmap_app. f_equal; by apply names_of_built.
Qed.

(** When the formatter's constructor returns, on a workbook whose style
    names are pairwise distinct, every key of the two catalogs has given a
    style (none was dropped): the workbook holds its earlier styles followed
    by one style per key, each named after its key, visual catalog first;
    its style names are still pairwise distinct and its sheets are
    untouched. *)
Theorem constructor_registers_every_key (cfg : Config) (lib : Renderer)
    (wb wb' : Workbook) (l l' : log) :
  NoDup (style_names wb) →
  SetSheetFormatter.__init__ cfg lib (wb, l) = (Ok tt, (wb', l')) →
  ∃ sts, _named_styles wb' = _named_styles wb ++ sts
    ∧ name <$> sts =
      dict_keys (visual_style_name cfg) ++ dict_keys (data_type_style_name cfg)
    ∧ NoDup (style_names wb')
    ∧ worksheets wb' = worksheets wb.
Proof.
  intros Hwb Hinit. apply _init_global_styles_ok in Hinit as (sts & Hb & -> & Hnd & Hfresh).
  exists sts. split; [done|]. split; [|split; [|done]].
  - by eapply build_bulk_named_style_names.
  - unfold style_names, with_styles. simpl. rewrite fmap_app.
    apply NoDup_app. split; [done|]. split; [|done].
    intros n Hn Hn'. by apply (Hfresh n).
Qed.

Lemma constructor_registers_every_key_witness :
  ∃ sts, _named_styles shipped_workbook = _named_styles ExcelWriter._create_workbook ++ sts
    ∧ name <$> sts =
      dict_keys (visual_style_name constants) ++ dict_keys (data_type_style_name constants)
    ∧ NoDup (style_names shipped_workbook)
    ∧ worksheets shipped_workbook = worksheets ExcelWriter._create_workbook.
Proof.
  apply (constructor_registers_every_key constants refusing_renderer
           ExcelWriter._create_workbook shipped_workbook [] []).
  - by_evaluation.
  - reflexivity.
Defined.

(** A workbook takes one formatter only: once the constructor has returned
    on a workbook, for catalogs that have a key, constructing a formatter on
    the same workbook again raises the library's [ValueError] at the first
    style and leaves the workbook as the first construction left it. *)
Theorem second_formatter_is_refused (cfg : Config) (lib : Renderer)
    (wb wb' : Workbook) (l l' : log) :
  SetSheetFormatter.__init__ cfg lib (wb, l) = (Ok tt, (wb', l')) →
  dict_keys (visual_style_name cfg) ++ dict_keys (data_type_style_name cfg) ≠ [] →
  ∃ e l'', SetSheetFormatter.__init__ cfg lib (wb', l') = (Raise e, (wb', l''))
           ∧ exn_cls e = ValueError.
Proof.
  intros Hinit Hkeys.
  apply _init_global_styles_ok in Hinit as (sts & Hb & -> & Hnd & Hfresh).
  pose proof (build_bulk_named_style_names cfg sts _ _ Hb) as Hnames.
  destruct sts as [|st sts]; [by rewrite <- Hnames in Hkeys|].
  destruct (build_bulk_named_style_log_only (T := Workbook) cfg) as (r & w & Hlog).
  rewrite (Hlog (wb, l)) in Hb. simpl in Hb. injection Hb as -> Hl.
  unfold SetSheetFormatter.__init__, _init_global_styles, bind, try_except.
  rewrite (Hlog _). cbn [fst snd fmap list_fmap].
  rewrite register_each_duplicate.
  - by eexists _, _.
  - unfold style_names, with_styles. simpl. rewrite fmap_app. simpl.
    apply elem_of_app. right. left.
Qed.

Lemma second_formatter_is_refused_witness :
  ∃ e l'', SetSheetFormatter.__init__ constants refusing_renderer (shipped_workbook, []) =
             (Raise e, (shipped_workbook, l''))
           ∧ exn_cls e = ValueError.
Proof.
  apply (second_formatter_is_refused constants refusing_renderer
           ExcelWriter._create_workbook shipped_workbook [] []); done.
Defined.

(** ** What the builder makes of an entry *)






(** ** Catalogs that always register *)






(** ** What [read] raises, and when it does not validate *)

Section reader_more.
Context (repr : string → string) (fs : ExcelReader.FileSystem).

Import ExcelReader.



(** Without required columns ([None] or an empty list) nothing is validated:
    whatever columns the table has, [read] returns it as read, and logs
    nothing. *)
Theorem read_without_required_columns (path : string) (required : option (list string))
    (T : DataFrame) (l : log) :
  required = None ∨ required = Some [] →
  path_exists fs path = true →
  read_excel fs path = Ok T →
  read repr fs (ExcelReader.__init__ path required) (tt, l) = (Ok T, (tt, l)).
Proof.
  intros Hreq Hex Hread.
  rewrite (read_readable repr fs (ExcelReader.__init__ path required) T _ Hex Hread).
  unfold bind, _validate_columns. by destruct Hreq as [->| ->].
Qed.

(** The validation sees the required columns as a set: two requirement
    lists with the same names, in any order and with any repetition, give
    the same result, message included. *)
Theorem read_required_columns_as_a_set (path : string) (req1 req2 : list string)
    (s : unit * log) :
  (∀ c, c ∈ req1 ↔ c ∈ req2) →
  read repr fs {| file_path := path; required_columns := req1 |} s =
  read repr fs {| file_path := path; required_columns := req2 |} s.
Proof.
  intros Hsame.
  assert ((list_to_set req1 : gset string) = list_to_set req2) as Hset.
  { apply set_eq. intros c. by rewrite !elem_of_list_to_set. }
  assert (bool_decide (req1 = []) = bool_decide (req2 = [])) as Hnil.
  { apply bool_decide_ext. split; intros ->.
    - destruct req2 as [|c r]; [done|]. exfalso. apply (elem_of_nil c), Hsame. left.
    - destruct req1 as [|c r]; [done|]. exfalso. apply (elem_of_nil c), Hsame. left. }
  set (self1 := {| file_path := path; required_columns := req1 |}).
  set (self2 := {| file_path := path; required_columns := req2 |}).
  assert (∀ df s0, _validate_columns repr self1 df s0 = _validate_columns repr self2 df s0)
    as Hv.
  { intros df s0. unfold _validate_columns. simpl. by rewrite Hnil, Hset. }
  unfold read.
  change (_check_file_exists fs self1) with (_check_file_exists fs self2).
  change (_read_excel_file fs self1) with (_read_excel_file fs self2).
  unfold bind. destruct (_check_file_exists fs self2 s) as [[[]|e] s1]; [|done].
  destruct (_read_excel_file fs self2 s1) as [[T|e] s2]; [|done].
  by rewrite Hv.
Qed.
End reader_more.

Lemma read_without_required_columns_witness :
  ExcelReader.read quoted sample_fs (ExcelReader.__init__ "in.xlsx" (Some [])) (tt, []) =
  (Ok {| df_columns := ["status"; "name"]; df_rows := [] |}, (tt, [])).
Proof.
  apply (read_without_required_columns quoted sample_fs "in.xlsx" (Some [])
           {| df_columns := ["status"; "name"]; df_rows := [] |} []).
  - by right.
  - reflexivity.
  - reflexivity.
Defined.

Lemma read_required_columns_as_a_set_witness :
  ExcelReader.read quoted sample_fs
    {| ExcelReader.file_path := "in.xlsx";
       ExcelReader.required_columns := ["name"; "id"; "name"] |} (tt, []) =
  ExcelReader.read quoted sample_fs
    {| ExcelReader.file_path := "in.xlsx";
       ExcelReader.required_columns := ["id"; "name"] |} (tt, []).
Proof.
  apply (read_required_columns_as_a_set quoted sample_fs "in.xlsx"
           ["name"; "id"; "name"] ["id"; "name"] (tt, [])).
  intros c. rewrite !elem_of_cons. tauto.
Defined.

(** ** Writing a table into a sheet *)

Lemma set_cell_value_lookup (r c : Z) (v : pyval) (ws : Worksheet) (k : Z * Z) :
  _cells (set_cell_value r c v ws) !! k =
  if bool_decide (k = (r, c)) then Some {| value := v; style := style (cell ws r c) |}
  else _cells ws !! k.
Proof.
  simpl. case_bool_decide as Hk.
  - subst k. apply lookup_insert_eq.
  - by apply lookup_insert_ne.
Qed.

(** The cells of one appended row, from column [start] on. *)
Lemma append_from_lookup (r start : Z) (row : list pyval) (ws : Worksheet) (r' c' : Z) :
  _cells (foldl (λ w cv, set_cell_value r cv.1 cv.2 w) ws (enumerate start row))
    !! (r', c') =
  match (if bool_decide (r' = r ∧ start ≤ c') then row !! Z.to_nat (c' - start) else None)
  with
  | Some v => Some {| value := v; style := style (cell ws r' c') |}
  | None => _cells ws !! (r', c')
  end.
Proof.
  revert start ws. induction row as [|v row IH]; intros start ws; simpl.
  - by case_bool_decide.
  - rewrite IH. unfold cell at 1. rewrite !set_cell_value_lookup.
    destruct (decide (r' = r ∧ start ≤ c')) as [[-> Hc]|Hout].
    + rewrite (bool_decide_eq_true_2 (r = r ∧ start ≤ c')) by done.
      destruct (decide (c' = start)) as [->|Hne].
      * rewrite (bool_decide_eq_false_2 (r = r ∧ start + 1 ≤ start)) by lia.
        rewrite bool_decide_eq_true_2 by done.
        by replace (Z.to_nat (start - start)) with 0%nat by lia.
      * rewrite (bool_decide_eq_true_2 (r = r ∧ start + 1 ≤ c')) by lia.
        rewrite bool_decide_eq_false_2 by congruence.
        replace (Z.to_nat (c' - start)) with (S (Z.to_nat (c' - (start + 1)))) by lia.
        done.
    + rewrite (bool_decide_eq_false_2 (r' = r ∧ start ≤ c')) by done.
      rewrite (bool_decide_eq_false_2 (r' = r ∧ start + 1 ≤ c')) by lia.
      rewrite bool_decide_eq_false_2; [done|]. intros [= -> ->]. lia.
Qed.

Lemma append_lookup (r : Z) (row : list pyval) (ws : Worksheet) (r' c' : Z) :
  _cells (append r row ws) !! (r', c') =
  match (if bool_decide (r' = r ∧ 1 ≤ c') then row !! Z.to_nat (c' - 1) else None) with
  | Some v => Some {| value := v; style := style (cell ws r' c') |}
  | None => _cells ws !! (r', c')
  end.
Proof. apply append_from_lookup. Qed.



(** The cells of the rows [rows] appended after row [k]. *)
Lemma rows_after_lookup (k : Z) (rows : list (list pyval)) (ws : Worksheet) (r c : Z) :
  _cells (foldl (λ w ir, append (ir.1 + 1) ir.2 w) ws (enumerate k rows)) !! (r, c) =
  match (if bool_decide (k + 1 ≤ r ∧ 1 ≤ c) then
           match rows !! Z.to_nat (r - (k + 1)) with
           | Some row => row !! Z.to_nat (c - 1)
           | None => None
           end
         else None) with
  | Some v => Some {| value := v; style := style (cell ws r c) |}
  | None => _cells ws !! (r, c)
  end.
Proof.
  revert k ws. induction rows as [|row rows IH]; intros k ws; simpl.
  - by case_bool_decide.
  - rewrite IH. unfold cell at 1. rewrite !append_lookup.
    destruct (decide (r = k + 1)) as [->|Hne].
    + rewrite (bool_decide_eq_false_2 (k + 1 + 1 ≤ k + 1 ∧ 1 ≤ c)) by lia.
      replace (Z.to_nat (k + 1 - (k + 1))) with 0%nat by lia. simpl.
      rewrite (bool_decide_ext (k + 1 = k + 1 ∧ 1 ≤ c) (k + 1 ≤ k + 1 ∧ 1 ≤ c)) by lia.
      done.
    + rewrite (bool_decide_eq_false_2 (r = k + 1 ∧ 1 ≤ c)) by tauto.
      rewrite (bool_decide_ext (k + 1 + 1 ≤ r ∧ 1 ≤ c) (k + 1 ≤ r ∧ 1 ≤ c)) by lia.
      case_bool_decide as H; [|done].
      replace (Z.to_nat (r - (k + 1))) with (S (Z.to_nat (r - (k + 1 + 1)))) by lia.
      done.
Qed.

Lemma table_sheet_lookup (df : DataFrame) (r c : Z) :
  _cells (table_sheet df) !! (r, c) =
  (λ v, {| value := v; style := "Normal" |}) <$> table_value df r c.
Proof.
  unfold table_sheet, table_value, write_rows. rewrite rows_after_lookup.
  change (1 - 1 + 1) with 1.
  case_bool_decide; [|done].
  destruct (dataframe_to_rows df !! Z.to_nat (r - 1)) as [row|]; [|done].
  by destruct (row !! Z.to_nat (c - 1)).
Qed.

(** ** [add_sheet] *)

Lemma on_sheet_at {A} (i : nat) (m : M (Worksheet * log) A) (w : World) (l l' : log)
    (t : string) (ws ws' : Worksheet) (r : result A) :
  sheets w !! i = Some (t, ws) →
  m (ws, l) = (r, (ws', l')) →
  on_sheet i m (w, l) = (r, (put_sheet i (t, ws') w, l')).
Proof.
  intros Hi Hm. unfold on_sheet, sheets in *. simpl. rewrite Hi. simpl. by rewrite Hm.
Qed.

Lemma put_sheet_same (i : nat) (e : string * Worksheet) (w : World) :
  sheets w !! i = Some e → put_sheet i e w = w.
Proof.
  intros Hi. unfold put_sheet, sheets in *. rewrite list_insert_id by done.
  by destruct w as [[? ?] ?].
Qed.

Lemma put_sheet_twice (i : nat) (e e' : string * Worksheet) (w : World) :
  put_sheet i e (put_sheet i e' w) = put_sheet i e w.
Proof. unfold put_sheet. simpl. by rewrite list_insert_insert_eq. Qed.

Lemma put_sheet_lookup (i : nat) (e e' : string * Worksheet) (w : World) :
  sheets w !! i = Some e' → sheets (put_sheet i e w) !! i = Some e.
Proof.
  intros Hi. unfold sheets, put_sheet in *. simpl.
  apply list_lookup_insert_eq. by eapply lookup_lt_Some.
Qed.

Lemma put_sheet_new (e e0 : string * Worksheet) (w : World) :
  put_sheet (length (sheets w)) e (with_new_sheet e0 w) = with_new_sheet e w.
Proof.
  unfold put_sheet, with_new_sheet, sheets. simpl.
  rewrite insert_app_r_alt by done. by rewrite Nat.sub_diag.
Qed.

(** The loop of [add_sheet] on the sheet at position [i]. *)
Lemma append_loop (i : nat) (k : Z) (rows : list (list pyval)) (w : World) (l : log)
    (t : string) (ws : Worksheet) :
  sheets w !! i = Some (t, ws) →
  for_each (enumerate k rows)
    (λ ir, on_sheet i (modify (λ s, (append (ir.1 + 1) ir.2 s.1, s.2)))) (w, l) =
  (Ok tt, (put_sheet i (t, foldl (λ w ir, append (ir.1 + 1) ir.2 w) ws (enumerate k rows)) w,
           l)).
Proof.
  revert k w ws. induction rows as [|row rows IH]; intros k w ws Hi; simpl.
  - by rewrite put_sheet_same.
  - erewrite bind_ok; [|by eapply on_sheet_at]. simpl.
    erewrite IH; [|by eapply put_sheet_lookup]. by rewrite put_sheet_twice.
Qed.

Lemma create_sheet_run (out : Outside) (sheet_name : string) (w : World) (l : log) :
  create_sheet out sheet_name (w, l) =
  match sheet_title out ((sheets w).*1) sheet_name with
  | Ok t => (Ok (length (sheets w)), (with_new_sheet (t, empty_sheet) w, l))
  | Raise e => (Raise e, (w, l))
  end.
Proof.
  unfold create_sheet, sheets, bind, get, lift. simpl.
  by destruct (sheet_title out _ sheet_name).
Qed.

Lemma add_sheet_run (out : Outside) (df : DataFrame) (sheet_name t : string)
    (w : World) (l : log) :
  sheet_name ≠ EmptyString →
  sheet_title out ((sheets w).*1) sheet_name = Ok t →
  add_sheet out df sheet_name (w, l) =
  (Ok (length (sheets w)), (with_new_sheet (t, table_sheet df) w, l)).
Proof.
  intros Hname Ht. unfold add_sheet. rewrite bool_decide_eq_false_2 by done.
  erewrite bind_ok; [|by rewrite create_sheet_run, Ht].
  erewrite bind_ok.
  2:{ apply (append_loop _ _ _ _ _ t empty_sheet).
      unfold sheets, with_new_sheet. simpl. rewrite lookup_app_r by done.
      by rewrite Nat.sub_diag. }
  by rewrite put_sheet_new.
Qed.


(** ** What a computation leaves alone *)

Section preserves_facts.
Context {T : Type} (R : T → T → Prop) `{!Reflexive R} `{!Transitive R}.

Lemma preserves_ret {A} (a : A) : preserves R (ret a).
Proof. unfold preserves, ret. intros s r s' [= <- <-]. reflexivity. Qed.

Lemma preserves_raise {A} (c : exn_class) (msg : string) : preserves R (raise (A := A) c msg).
Proof. unfold preserves, raise. intros s r s' [= <- <-]. reflexivity. Qed.

Lemma preserves_raise_exn {A} (e : exn) : preserves R (raise_exn (A := A) e).
Proof. unfold preserves, raise_exn. intros s r s' [= <- <-]. reflexivity. Qed.

Lemma preserves_lift {A} (x : result A) : preserves R (lift x).
Proof. unfold preserves, lift. intros s r s' [= <- <-]. reflexivity. Qed.

Lemma preserves_get : preserves R get.
Proof. unfold preserves, get. intros s r s' [= <- <-]. reflexivity. Qed.

Lemma preserves_warning (msg : string) : preserves R (Logger.warning msg).
Proof. unfold preserves, Logger.warning, modify. intros s r s' [= <- <-]. reflexivity. Qed.

Lemma preserves_error (msg : string) : preserves R (Logger.error msg).
Proof. unfold preserves, Logger.error, modify. intros s r s' [= <- <-]. reflexivity. Qed.

Lemma preserves_modify (f : T * log → T * log) :
  (∀ s, R s.1 (f s).1) → preserves R (modify f).
Proof. unfold preserves, modify. intros Hf s r s' [= <- <-]. apply Hf. Qed.

Lemma preserves_on_target {A} (m : M T A) :
  (∀ t r t', m t = (r, t') → R t t') → preserves R (Logger.on_target m).
Proof.
  unfold preserves, Logger.on_target. intros Hm s r s'.
  destruct (m s.1) as [r1 t1] eqn:E. intros [= <- <-]. by eapply Hm.
Qed.

Lemma preserves_bind {A B} (m : M (T * log) A) (k : A → M (T * log) B) :
  preserves R m → (∀ a, preserves R (k a)) → preserves R (bind m k).
Proof.
  unfold preserves, bind. intros Hm Hk s r s'.
  destruct (m s) as [[a|e] s1] eqn:E.
  - intros Hka. etrans; [by eapply Hm | by eapply Hk].
  - intros [= <- <-]. by eapply Hm.
Qed.

Lemma preserves_try_except {A} (body : M (T * log) A) (handler : exn → M (T * log) A) :
  preserves R body → (∀ e, preserves R (handler e)) → preserves R (try_except body handler).
Proof.
  unfold preserves, try_except. intros Hm Hk s r s'.
  destruct (body s) as [[a|e] s1] eqn:E.
  - intros [= <- <-]. by eapply Hm.
  - intros Hka. etrans; [by eapply Hm | by eapply Hk].
Qed.

Lemma preserves_for_each {A} (l : list A) (body : A → M (T * log) unit) :
  (∀ x, preserves R (body x)) → preserves R (for_each l body).
Proof.
  intros Hb. induction l as [|x l IH]; simpl.
  - apply preserves_ret.
  - apply preserves_bind; [apply Hb | intros _; apply IH].
Qed.

End preserves_facts.

(** One step through a computation built from the monad's operations. *)
Ltac preserves_step :=
  lazymatch goal with
  | |- preserves _ (bind _ _) => apply preserves_bind; try assumption; [|intros ?]
  | |- preserves _ (try_except _ _) =>
      apply preserves_try_except; try assumption; [|intros ?]
  | |- preserves _ (for_each _ _) => apply preserves_for_each; try assumption; intros ?
  | |- preserves _ (ret _) => apply preserves_ret; try assumption
  | |- preserves _ (raise _ _) => apply preserves_raise; try assumption
  | |- preserves _ (raise_exn _) => apply preserves_raise_exn; try assumption
  | |- preserves _ (reraise _) => apply preserves_raise_exn; try assumption
  | |- preserves _ (lift _) => apply preserves_lift; try assumption
  | |- preserves _ get => apply preserves_get; try assumption
  | |- preserves _ (Logger.warning _) => apply preserves_warning; try assumption
  | |- preserves _ (Logger.error _) => apply preserves_error; try assumption
  | |- preserves _ (if ?b then _ else _) => destruct b
  | |- preserves _ (match ?x with _ => _ end) => destruct x
  end.

(** ** What formatting leaves alone *)

Section formatting_preserves.
Context (R : Worksheet → Worksheet → Prop) (HR : Reflexive R) (HT : Transitive R).
Context (cfg : Config) (lib : Renderer).
Hypothesis style_ok : ∀ r c s ws, R ws (set_cell_style r c s ws).
Hypothesis width_ok : ∀ c w ws, R ws (set_width c w ws).
Hypothesis filter_ok : ∀ ws r ws', set_auto_filter_ref lib ws = (r, ws') → R ws ws'.
Hypothesis freeze_ok : ∀ v ws r ws', set_freeze_panes lib v ws = (r, ws') → R ws ws'.

Lemma _apply_styles_preserves (row_idx col_idx num_rows num_cols : Z) (s : string) :
  preserves R (_apply_styles row_idx col_idx num_rows num_cols s).
Proof.
  unfold _apply_styles. repeat preserves_step.
  apply preserves_modify. intros st. apply style_ok.
Qed.

Lemma format_style_header_body_preserves (num_rows num_cols : Z) :
  preserves R (format_style_header_body num_rows num_cols).
Proof.
  unfold format_style_header_body. preserves_step; [preserves_step|].
  preserves_step; apply _apply_styles_preserves.
Qed.

Lemma format_style_base_on_data_type_preserves (cols : list string) (n : Z) :
  preserves R (format_style_base_on_data_type cfg cols n).
Proof.
  unfold format_style_base_on_data_type. repeat preserves_step.
  apply _apply_styles_preserves.
Qed.

Lemma set_filter_mode_preserves : preserves R (set_filter_mode cfg lib).
Proof.
  unfold set_filter_mode. repeat preserves_step.
  apply preserves_on_target, filter_ok.
Qed.

Lemma set_freeze_panes_style_preserves : preserves R (set_freeze_panes_style cfg lib).
Proof.
  unfold set_freeze_panes_style. repeat preserves_step.
  apply preserves_on_target, freeze_ok.
Qed.

Lemma auto_adjust_cols_preserves : preserves R (auto_adjust_cols cfg).
Proof.
  unfold auto_adjust_cols. repeat preserves_step.
  apply preserves_modify. intros st. apply width_ok.
Qed.

Lemma cosmetic_steps_preserves : preserves R (cosmetic_steps cfg lib).
Proof.
  unfold cosmetic_steps.
  preserves_step; [apply set_filter_mode_preserves|].
  preserves_step; [apply auto_adjust_cols_preserves|].
  apply set_freeze_panes_style_preserves.
Qed.

Lemma run_pipeline_preserves (df : DataFrame) : preserves R (run_pipeline cfg lib df).
Proof.
  unfold run_pipeline.
  preserves_step; [|repeat preserves_step].
  preserves_step; [apply format_style_header_body_preserves|].
  preserves_step; [apply format_style_base_on_data_type_preserves|].
  apply cosmetic_steps_preserves.
Qed.

End formatting_preserves.

(** Formatting never changes a value and never drops a cell, however it
    ends: for every table, sheet and configuration, when the library's two
    setters do not, the sheet [run_pipeline] leaves (returning or raising)
    has every cell the sheet had, and every cell, old or new, reads the
    value it read before. *)
Theorem run_pipeline_keeps_the_data (cfg : Config) (lib : Renderer) (df : DataFrame)
    (s s' : Worksheet * log) (r : result unit) :
  (∀ ws r ws', set_auto_filter_ref lib ws = (r, ws') → keeps_data ws ws') →
  (∀ v ws r ws', set_freeze_panes lib v ws = (r, ws') → keeps_data ws ws') →
  run_pipeline cfg lib df s = (r, s') →
  keeps_data s.1 s'.1.
Proof.
  intros Hfilter Hfreeze.
  apply (run_pipeline_preserves keeps_data); [| | | |done|done].
  - intros ws r0 c0. done.
  - intros ws1 ws2 ws3 H12 H23 r0 c0. destruct (H23 r0 c0) as [-> H2].
    destruct (H12 r0 c0) as [-> H1]. split; [done|]. intros H. by apply H2, H1.
  - intros r0 c0 st ws r1 c1. unfold cell. rewrite set_cell_style_lookup.
    case_bool_decide as Hk; [|done]. injection Hk as <- <-. split; [done|by eexists].
  - intros c0 w0 ws r1 c1. done.
Qed.

Lemma run_pipeline_keeps_the_data_witness :
  value (cell (run_pipeline constants refusing_renderer
                 {| df_columns := ["Name"; "Name"]; df_rows := [[PStr "x"; PNone]] |}
                 (gap_sheet, [])).2.1 1 3) = PStr "y"
  ∧ is_Some (_cells (run_pipeline constants refusing_renderer
                       {| df_columns := ["Name"; "Name"]; df_rows := [[PStr "x"; PNone]] |}
                       (gap_sheet, [])).2.1 !! (1, 3)).
Proof.
  destruct (run_pipeline_keeps_the_data constants refusing_renderer
              {| df_columns := ["Name"; "Name"]; df_rows := [[PStr "x"; PNone]] |}
              (gap_sheet, [])
              (run_pipeline constants refusing_renderer
                 {| df_columns := ["Name"; "Name"]; df_rows := [[PStr "x"; PNone]] |}
                 (gap_sheet, [])).2
              (run_pipeline constants refusing_renderer
                 {| df_columns := ["Name"; "Name"]; df_rows := [[PStr "x"; PNone]] |}
                 (gap_sheet, [])).1) with 1 3 as [Hvalue Hcell].
  - intros ws r ws' [= <- <-] r0 c0. done.
  - intros v ws r ws' [= <- <-] r0 c0. done.
  - by destruct (run_pipeline _ _ _ _).
  - split; [exact Hvalue|]. apply Hcell. by eexists.
Defined.

(** ** The export *)

Lemma export_pipeline_unfold (cfg : Config) (lib : Renderer) (out : Outside)
    (file_name : string) (dfs : list DataFrame) (names : option (list string)) :
  export_pipeline cfg lib out file_name dfs names =
  if bool_decide (file_name = EmptyString) then
    raise ConfigError "file_name must be provided for export"
  else
    bind (for_each (enumerate 0 dfs) (export_step cfg lib out names))
         (λ _, save out (output_path out file_name)).
Proof. reflexivity. Qed.

(** [save] writes the workbook as it is, or raises once the failure is logged. *)
Lemma save_run (out : Outside) (path : string) (w : World) (l : log) :
  save out path (w, l) =
  match save_to out path (workbook w) with
  | Saved => (Ok tt, (with_file path w, l))
  | PermissionDenied =>
      (Raise (Exn ExcelFileNotFoundError
                ("Cannot write to file (permission denied): " +:+ path) EmptyString),
       (w, l ++ [(ERROR, "Permission denied when saving: " +:+ path)]))
  | SaveFailed e =>
      (Raise (Exn ExcelFileNotFoundError ("Cannot save Excel file: " +:+ path) EmptyString),
       (w, l ++ [(ERROR, "Error saving workbook to " +:+ path +:+ ": " +:+ exn_str e)]))
  end.
Proof.
  unfold save, bind at 1, get. simpl. by destruct (save_to out path (workbook w)).
Qed.

Lemma name_of_sheet_run (names : option (list string)) (i : nat) (s : World * log) :
  name_of_sheet names (Z.of_nat i) s =
  match asked_title names i with
  | Some t => (Ok t, s)
  | None => (Raise (Exn IndexError "list index out of range" EmptyString), s)
  end.
Proof.
  unfold name_of_sheet, asked_title. destruct names as [[|n ns]|]; try done.
  rewrite Nat2Z.id. by destruct (_ !! i).
Qed.

Lemma format_new_sheet (cfg : Config) (lib : Renderer) (df : DataFrame) (t : string)
    (ws0 ws' : Worksheet) (w : World) (l l' : log) (r : result unit) :
  run_pipeline cfg lib df (ws0, l) = (r, (ws', l')) →
  format_sheet cfg lib (length (sheets w)) df (with_new_sheet (t, ws0) w, l) =
  (r, (with_new_sheet (t, ws') w, l')).
Proof.
  intros Hrun. unfold format_sheet. erewrite on_sheet_at; [|..|exact Hrun].
  - by rewrite put_sheet_new.
  - unfold sheets, with_new_sheet. simpl. rewrite lookup_app_r by done.
    by rewrite Nat.sub_diag.
Qed.

(** One turn of the loop, when the title is there and taken. *)
Lemma export_step_run (cfg : Config) (lib : Renderer) (out : Outside)
    (names : option (list string)) (k : nat) (df : DataFrame) (w : World) (l l' : log)
    (title t : string) (ws : Worksheet) (r : result unit) :
  asked_title names k = Some title → title ≠ EmptyString →
  sheet_title out ((sheets w).*1) title = Ok t →
  run_pipeline cfg lib df (table_sheet df, l) = (r, (ws, l')) →
  export_step cfg lib out names (Z.of_nat k, df) (w, l) =
  (r, (with_new_sheet (t, ws) w, l')).
Proof.
  intros Hk Hne Ht Hrun. unfold export_step. simpl.
  erewrite bind_ok; [|by rewrite name_of_sheet_run, Hk].
  erewrite bind_ok; [|by apply add_sheet_run].
  by apply format_new_sheet.
Qed.

(** One turn of the loop either raises before the workbook is touched, or
    adds the sheet of the table and ends as [run_pipeline] does on it. *)
Lemma export_step_cases (cfg : Config) (lib : Renderer) (out : Outside)
    (names : option (list string)) (k : nat) (df : DataFrame) (w : World) (l : log)
    (r : result unit) (s' : World * log) :
  export_step cfg lib out names (Z.of_nat k, df) (w, l) = (r, s') →
  (∃ e, r = Raise e ∧ s' = (w, l))
  ∨ (∃ title t ws l',
       asked_title names k = Some title ∧ title ≠ EmptyString
       ∧ sheet_title out ((sheets w).*1) title = Ok t
       ∧ run_pipeline cfg lib df (table_sheet df, l) = (r, (ws, l'))
       ∧ s' = (with_new_sheet (t, ws) w, l')).
Proof.
  destruct (asked_title names k) as [title|] eqn:Hk.
  2:{ unfold export_step, bind at 1. simpl. rewrite name_of_sheet_run, Hk.
      intros [= <- <-]. left. by eexists. }
  destruct (decide (title = EmptyString)) as [->|Hne].
  { unfold export_step. simpl. erewrite bind_ok; [|by rewrite name_of_sheet_run, Hk].
    unfold bind at 1, add_sheet. rewrite bool_decide_eq_true_2 by done.
    intros [= <- <-]. left. by eexists. }
  destruct (sheet_title out ((sheets w).*1) title) as [t|e] eqn:Ht.
  2:{ unfold export_step. simpl. erewrite bind_ok; [|by rewrite name_of_sheet_run, Hk].
      unfold bind at 1, add_sheet. rewrite bool_decide_eq_false_2 by done.
      unfold bind at 1. rewrite create_sheet_run, Ht.
      intros [= <- <-]. left. by eexists. }
  destruct (run_pipeline cfg lib df (table_sheet df, l)) as [r' [ws l']] eqn:Hrun.
  rewrite (export_step_run cfg lib out names k df w l l' title t ws r' Hk Hne Ht Hrun).
  intros [= <- <-]. right. by exists title, t, ws, l'.
Qed.

Lemma export_step_inv (cfg : Config) (lib : Renderer) (out : Outside)
    (names : option (list string)) (k : nat) (df : DataFrame) (w : World) (l : log)
    (s' : World * log) :
  export_step cfg lib out names (Z.of_nat k, df) (w, l) = (Ok tt, s') →
  ∃ title t ws l',
    asked_title names k = Some title ∧ title ≠ EmptyString
    ∧ sheet_title out ((sheets w).*1) title = Ok t
    ∧ run_pipeline cfg lib df (table_sheet df, l) = (Ok tt, (ws, l'))
    ∧ s' = (with_new_sheet (t, ws) w, l').
Proof. intros [(e & He & _)|H]%export_step_cases; done. Qed.


Lemma run_pipeline_no_column (cfg : Config) (lib : Renderer) (df : DataFrame)
    (ws : Worksheet) (l : log) :
  df_columns df = [] →
  ∃ e l', run_pipeline cfg lib df (ws, l) = (Raise e, (ws, l')) ∧ exn_cls e = ValueError.
Proof.
  intros Hempty. unfold run_pipeline, try_except. rewrite Hempty. simpl length.
  unfold bind at 1. unfold format_style_header_body.
  rewrite bool_decide_eq_true_2 by lia. by eexists _, _.
Qed.

(** The sheet of a table once [run_pipeline] has returned on it. *)
Lemma run_pipeline_on_table (cfg : Config) (lib : Renderer) (df : DataFrame)
    (l1 l2 : log) (ws : Worksheet) :
  run_pipeline cfg lib df (table_sheet df, l1) = (Ok tt, (ws, l2)) →
  df_columns df ≠ []
  ∧ (keeps_cells lib → ∀ r c, _cells ws !! (r, c) = formatted_cell cfg df r c).
Proof.
  intros Hrun. destruct (decide (df_columns df = [])) as [Hempty|Hne].
  { destruct (run_pipeline_no_column cfg lib df (table_sheet df) l1 Hempty)
      as (e & l' & He & _). congruence. }
  split; [done|]. intros [Hfilter Hfreeze] r c.
  destruct (structural_steps_cells cfg (df_columns df) (Z.of_nat (length (df_rows df)))
              (table_sheet df) l1) as (ws2 & Hstruct & Hcells & _); [done|lia|].
  destruct (run_pipeline_structural cfg lib df _ _ Hstruct) as (s3 & Hp & Hc).
  rewrite Hrun in Hp. injection Hp as <-.
  assert (same_cells ws2 ws) as Hsame.
  { apply (cosmetic_steps_preserves same_cells) in Hc; try done.
    - intros ws1 ws3 ws4 H12 H23. unfold same_cells in *. congruence. }
  rewrite Hsame, Hcells. unfold formatted_cell, cell. by rewrite table_sheet_lookup.
Qed.

(** The loop of the export, when it returns. *)
Lemma export_loop_inv (cfg : Config) (lib : Renderer) (out : Outside)
    (names : option (list string)) (dfs : list DataFrame) (k : nat) (w : World) (l : log)
    (s' : World * log) :
  for_each (enumerate (Z.of_nat k) dfs) (export_step cfg lib out names) (w, l) = (Ok tt, s') →
  ∃ added,
    sheets s'.1 = sheets w ++ added ∧ length added = length dfs
    ∧ disk s'.1 = disk w
    ∧ _named_styles (workbook s'.1) = _named_styles (workbook w)
    ∧ ∀ i df, dfs !! i = Some df →
        ∃ title t ws l1 l2,
          asked_title names (k + i) = Some title ∧ title ≠ EmptyString
          ∧ sheet_title out ((sheets w ++ take i added).*1) title = Ok t
          ∧ added !! i = Some (t, ws)
          ∧ run_pipeline cfg lib df (table_sheet df, l1) = (Ok tt, (ws, l2)).
Proof.
  revert k w l. induction dfs as [|df dfs IH]; intros k w l; simpl.
  - intros [= <-]. exists []. simpl. rewrite app_nil_r. repeat split; done.
  - unfold bind at 1.
    destruct (export_step cfg lib out names (Z.of_nat k, df) (w, l)) as [[[]|e] s1] eqn:E;
      [|done].
    apply export_step_inv in E as (title & t & ws & l' & Hk & Hne & Ht & Hrun & ->).
    replace (Z.of_nat k + 1) with (Z.of_nat (S k)) by lia. intros Hloop.
    apply IH in Hloop as (added & Hsheets & Hlen & Hdisk & Hstyles & Hall).
    exists ((t, ws) :: added). simpl in *. split; [|split; [|split; [|split]]].
    + rewrite Hsheets. unfold sheets, with_new_sheet. simpl. by rewrite <- app_assoc.
    + by rewrite Hlen.
    + done.
    + done.
    + intros [|i] df' Hi; simpl in Hi.
      * injection Hi as <-. exists title, t, ws, l, l'. rewrite Nat.add_0_r.
        simpl. rewrite app_nil_r. done.
      * destruct (Hall i df' Hi) as (title' & t' & ws' & l1 & l2 & H1 & H2 & H3 & H4 & H5).
        exists title', t', ws', l1, l2. rewrite Nat.add_succ_r. simpl.
        split; [done|]. split; [done|]. split; [|done].
        revert H3. unfold sheets, with_new_sheet. simpl. by rewrite <- app_assoc.
Qed.

Lemma run_pipeline_with_columns (cfg : Config) (lib : Renderer) (df : DataFrame)
    (s : Worksheet * log) :
  df_columns df ≠ [] → ∃ s3, run_pipeline cfg lib df s = (Ok tt, s3).
Proof.
  intros Hne. destruct s as [ws l].
  destruct (structural_steps_cells cfg (df_columns df) (Z.of_nat (length (df_rows df)))
              ws l) as (ws2 & Hstruct & _); [done|lia|].
  destruct (run_pipeline_structural cfg lib df _ _ Hstruct) as (s3 & Hp & _).
  by exists s3.
Qed.

Lemma names_cover_spec (names : option (list string)) (n : nat) :
  names_cover names n ↔
  ∀ i, (i < n)%nat → ∃ title, asked_title names i = Some title ∧ title ≠ EmptyString.
Proof.
  unfold names_cover, asked_title. destruct names as [[|x ns]|].
  - split; [|done]. intros _ i _. by eexists.
  - split.
    + intros [Hlen Hne] i Hi.
      destruct (lookup_lt_is_Some_2 (x :: ns) i) as [t Ht]; [lia|].
      exists t. split; [done|]. by eapply Hne.
    + intros H. split.
      * destruct n as [|n]; [lia|]. destruct (H n) as (t & Ht & _); [lia|].
        apply lookup_lt_Some in Ht. lia.
      * intros i t Hi Ht. destruct (H i Hi) as (t' & Ht' & Hne). congruence.
  - split; [|done]. intros _ i _. by eexists.
Qed.

(** The loop returns when every title is there and taken and every table
    has a column. *)
Lemma export_loop_ok (cfg : Config) (lib : Renderer) (out : Outside)
    (names : option (list string)) (dfs : list DataFrame) (k : nat) (s : World * log) :
  (∀ taken name, name ≠ EmptyString → ∃ t, sheet_title out taken name = Ok t) →
  Forall (λ df, df_columns df ≠ []) dfs →
  (∀ i, (i < length dfs)%nat →
        ∃ title, asked_title names (k + i) = Some title ∧ title ≠ EmptyString) →
  ∃ s', for_each (enumerate (Z.of_nat k) dfs) (export_step cfg lib out names) s = (Ok tt, s').
Proof.
  intros Hout Hcols. revert k s.
  induction Hcols as [|df dfs Hdf Hcols IH]; intros k [w l] Hnames; simpl.
  - by eexists.
  - destruct (Hnames 0%nat) as (title & Htitle & Hne); [simpl; lia|].
    rewrite Nat.add_0_r in Htitle.
    destruct (Hout ((sheets w).*1) title Hne) as [t Ht].
    destruct (run_pipeline_with_columns cfg lib df (table_sheet df, l) Hdf) as [[ws l'] Hrun].
    erewrite bind_ok; [|by eapply export_step_run].
    replace (Z.of_nat k + 1) with (Z.of_nat (S k)) by lia. apply IH.
    intros i Hi. rewrite Nat.add_succ_l, <- Nat.add_succ_r. apply Hnames. simpl. lia.
Qed.






(** ** What the export writes *)






(** ** An export that stops half way *)

Lemma enumerate_app {A} (k : Z) (l1 l2 : list A) :
  enumerate k (l1 ++ l2) = enumerate k l1 ++ enumerate (k + Z.of_nat (length l1)) l2.
Proof.
  revert k. induction l1 as [|x l1 IH]; intros k; simpl.
  - by rewrite Z.add_0_r.
  - rewrite IH. do 3 f_equal. lia.
Qed.

Lemma for_each_app {S A} (l1 l2 : list A) (body : A → M S unit) (s : S) :
  for_each (l1 ++ l2) body s = bind (for_each l1 body) (λ _, for_each l2 body) s.
Proof.
  revert s. induction l1 as [|x l1 IH]; intros s; simpl; [reflexivity|].
  unfold bind in *. destruct (body x s) as [[[]|e] s1]; [|reflexivity]. apply IH.
Qed.

(** A table without columns stops the export with the [ValueError] of the
    header step, after the tables before it were written and after its own
    sheet was added: that sheet stays in the workbook, last and unformatted,
    the tables after it are not written, and nothing is saved. *)
Theorem export_pipeline_table_without_columns (cfg : Config) (lib : Renderer)
    (out : Outside) (file_name : string) (dfs1 dfs2 : list DataFrame) (df : DataFrame)
    (names : option (list string)) (w : World) (l : log) :
  file_name ≠ EmptyString →
  Forall (λ df, df_columns df ≠ []) dfs1 →
  df_columns df = [] →
  names_cover names (length dfs1 + 1) →
  (∀ taken name, name ≠ EmptyString → ∃ t, sheet_title out taken name = Ok t) →
  ∃ e s' added t,
    export_pipeline cfg lib out file_name (dfs1 ++ df :: dfs2) names (w, l) = (Raise e, s')
    ∧ exn_cls e = ValueError
    ∧ sheets s'.1 = sheets w ++ added ++ [(t, table_sheet df)]
    ∧ length added = length dfs1
    ∧ disk s'.1 = disk w.
Proof.
  intros Hfile Hcols Hdf Hnames Hout. rewrite export_pipeline_unfold.
  rewrite bool_decide_eq_false_2 by done.
  pose proof (proj1 (names_cover_spec _ _) Hnames) as Hasked.
  destruct (export_loop_ok cfg lib out names dfs1 0%nat (w, l) Hout Hcols)
    as [[w1 l1] Hloop].
  { intros i Hi. apply Hasked. lia. }
  pose proof Hloop as Hinv.
  apply (export_loop_inv cfg lib out names dfs1 0%nat) in Hinv
    as (added & Hsheets & Hlen & Hdisk & _).
  destruct (Hasked (length dfs1)) as (title & Htitle & Hne); [lia|].
  destruct (Hout ((sheets w1).*1) title Hne) as [t Ht].
  destruct (run_pipeline_no_column cfg lib df (table_sheet df) l1 Hdf) as (e & l' & Hrun & He).
  pose proof (export_step_run cfg lib out names (length dfs1) df w1 l1 l' title t
                (table_sheet df) (Raise e) Htitle Hne Ht Hrun) as Hstep.
  exists e, (with_new_sheet (t, table_sheet df) w1, l'), added, t.
  split; [|split; [done|split; [|done]]].
  - unfold bind at 1. rewrite enumerate_app, for_each_app, Z.add_0_l.
    erewrite bind_ok by exact Hloop. cbn [enumerate for_each].
    unfold bind at 1. by rewrite Hstep.
  - simpl in *. unfold sheets, with_new_sheet in *. simpl. rewrite Hsheets.
    by rewrite <- app_assoc.
Qed.

Lemma export_pipeline_table_without_columns_witness :
  ∃ e s' added t,
    export_pipeline constants refusing_renderer accepting_outside "report.xlsx"
      ([people] ++ no_columns :: [people]) None (fresh_world, []) = (Raise e, s')
    ∧ exn_cls e = ValueError
    ∧ sheets s'.1 = sheets fresh_world ++ added ++ [(t, table_sheet no_columns)]
    ∧ length added = 1%nat
    ∧ disk s'.1 = [].
Proof.
  apply (export_pipeline_table_without_columns constants refusing_renderer
           accepting_outside "report.xlsx" [people] [people] no_columns None
           fresh_world []).
  - done.
  - by repeat constructor.
  - done.
  - done.
  - intros taken name _. by eexists.
Defined.

(** ** The styles of the cells written *)

Lemma formatted_cell_style (cfg : Config) (df : DataFrame) (r c : Z) (x : Cell) :
  formatted_cell cfg df r c = Some x →
  style x = "header_style" ∨ style x = data_style_at cfg (df_columns df) c
  ∨ style x = "Normal".
Proof.
  unfold formatted_cell. repeat case_bool_decide.
  - intros [= <-]. by left.
  - intros [= <-]. right. by left.
  - destruct (table_value df r c); [|done]. intros [= <-]. right. by right.
Qed.

Lemma data_style_at_shipped (cols : list string) (c : Z) :
  data_style_at constants cols c ∈ style_names shipped_workbook.
Proof.
  unfold data_style_at. destruct (first_occurrence_at cols c) as [col|]; [|by_evaluation].
  pose proof (cfg_style_name_cases col) as H.
  repeat (apply elem_of_cons in H as [->|H]; [by_evaluation|]).
  by apply elem_of_nil in H.
Qed.

(** With the shipped configuration, every style named by a cell of a file
    the export has written is registered in the workbook written: the
    writer's constructor has registered [header_style], [body_style] and the
    style of every data type before any sheet is formatted, and the export
    registers and removes none.  (The library's setters are taken to leave
    the cells alone.) *)
Theorem exported_cell_styles_are_registered (lib : Renderer) (out : Outside)
    (file_name : string) (dfs : list DataFrame) (names : option (list string))
    (wb0 wb : Workbook) (l0 l : log) (s' : World * log) :
  keeps_cells lib →
  ExcelWriter.__init__ constants lib (wb0, l0) = (Ok tt, (wb, l)) →
  export_pipeline constants lib out file_name dfs names
    ({| workbook := wb; disk := [] |}, l) = (Ok tt, s') →
  ∀ path saved, (path, saved) ∈ disk s'.1 →
  ∀ t ws r c x, (t, ws) ∈ worksheets saved → _cells ws !! (r, c) = Some x →
  style x ∈ style_names saved.
Proof.
  intros Hlib Hinit. rewrite ExcelWriter_init_constants in Hinit. injection Hinit as <- <-.
  rewrite export_pipeline_unfold. case_bool_decide as Hfile; [done|].
  unfold bind. destruct (for_each _ _ _) as [[[]|e] [w1 l1]] eqn:Hloop; [|done].
  apply (export_loop_inv constants lib out names dfs 0%nat) in Hloop
    as (added & Hsheets & Hlen & Hdisk & Hstyles & Hall).
  rewrite save_run.
  destruct (save_to out (output_path out file_name) (workbook w1)); [|done..].
  intros [= <-] path saved Hin t ws r c x Hws Hx. simpl in *.
  rewrite Hdisk in Hin. apply list_elem_of_singleton in Hin. injection Hin as -> ->.
  unfold sheets in Hsheets. rewrite Hsheets in Hws.
  apply list_elem_of_lookup_1 in Hws as [i Hi].
  destruct (lookup_lt_is_Some_2 dfs i) as [df Hdf].
  { rewrite <- Hlen. by eapply lookup_lt_Some. }
  destruct (Hall i df Hdf) as (title & t' & ws' & l2 & l3 & _ & _ & _ & Hadded & Hrun).
  rewrite Hi in Hadded. injection Hadded as <- <-.
  apply run_pipeline_on_table in Hrun as [_ Hcells].
  rewrite (Hcells Hlib) in Hx.
  unfold style_names. rewrite Hstyles.
  apply formatted_cell_style in Hx as [->|[->| ->]].
  - by_evaluation.
  - apply data_style_at_shipped.
  - by_evaluation.
Qed.

Lemma exported_cell_styles_are_registered_witness :
  Forall (λ file : string * Workbook,
    Forall (λ sheet : string * Worksheet,
      map_Forall (λ _ x, style x ∈ style_names file.2) (_cells sheet.2))
      (worksheets file.2))
    (disk exported_people.2.1).
Proof.
  apply Forall_forall. intros [path saved] Hin.
  apply Forall_forall. intros [t ws] Hws.
  apply map_Forall_lookup. intros [r c] x Hx.
  apply (exported_cell_styles_are_registered refusing_renderer accepting_outside
           "report.xlsx" [people; people] None new_Workbook shipped_workbook [] []
           exported_people.2) with path t ws r c.
  - split; [by intros ws0 r0 ws' [= <- <-]|by intros v ws0 r0 ws' [= <- <-]].
  - by vm_compute.
  - by vm_compute.
  - exact Hin.
  - exact Hws.
  - exact Hx.
Defined.
